(** * NotionAutomater: the record mapper, the collection and its publishers

    A shallow embedding of [MarketingAPI.py], [SlackInterconnect.py] and the
    polling loop of [SlackFlask.py].

    Python values that come out of [json.load] are modelled by [pyval];
    a raised exception is the [Err] case of [result].  Dictionaries are
    association lists in insertion order, because [dict.values()] iterates in
    that order and the sort that follows is stable.  JSON numbers are kept as
    integers: in every operation the mapper performs on a value (truth test,
    [isinstance(.., list)], subscripting, [.get]) a float behaves like an int.
    A string is a sequence of characters of type [ascii].  What the program
    prints is not part of the model. *)

From Stdlib Require Import ZArith List String Ascii Bool Lia.
From Stdlib Require Import Permutation Sorted DecimalString.
Import ListNotations.
Local Open Scope string_scope.
Local Open Scope list_scope.
Local Open Scope Z_scope.

(** ** Python values and exceptions *)

Set Warnings "-register-all".

Inductive pyval : Type :=
| PNone
| PBool (b : bool)
| PInt (z : Z)
| PStr (s : string)
| PList (l : list pyval)
| PDict (d : list (string * pyval)).

Inductive exn : Type :=
| AttributeError
| TypeError
| IndexError
| KeyError
| ValueError
| Exception (msg : string).

Inductive result (A : Type) : Type :=
| Ok (a : A)
| Err (e : exn).
Arguments Ok {A} a.
Arguments Err {A} e.

Definition bind {A B : Type} (m : result A) (k : A -> result B) : result B :=
  match m with
  | Ok a => k a
  | Err e => Err e
  end.

Notation "x <- m ;; k" := (bind m (fun x => k))
  (at level 61, m at next level, right associativity).

(** [try: body except Exception: handler] *)
Definition try_except {A : Type} (body : result A) (handler : exn -> result A) : result A :=
  match body with
  | Ok a => Ok a
  | Err e => handler e
  end.

Fixpoint assoc_get {V : Type} (k : string) (d : list (string * V)) : option V :=
  match d with
  | [] => None
  | (k', v) :: rest => if String.eqb k k' then Some v else assoc_get k rest
  end.

(** [bool(v)] *)
Definition truthy (v : pyval) : bool :=
  match v with
  | PNone => false
  | PBool b => b
  | PInt z => negb (z =? 0)
  | PStr s => negb (String.eqb s "")
  | PList l => match l with [] => false | _ => true end
  | PDict d => match d with [] => false | _ => true end
  end.

Definition isinstance_list (v : pyval) : bool :=
  match v with PList _ => true | _ => false end.

(** [len(v)]: only sized values have a length. *)
Definition py_len (v : pyval) : result Z :=
  match v with
  | PStr s => Ok (Z.of_nat (String.length s))
  | PList l => Ok (Z.of_nat (List.length l))
  | PDict d => Ok (Z.of_nat (List.length d))
  | _ => Err TypeError
  end.

(** [v[i]] for a non-negative literal index [i].  A dictionary decoded from
    JSON has string keys only, so an integer subscript is a [KeyError]. *)
Definition py_index (v : pyval) (i : nat) : result pyval :=
  match v with
  | PList l => match nth_error l i with Some x => Ok x | None => Err IndexError end
  | PStr s => match String.get i s with
              | Some c => Ok (PStr (String c EmptyString))
              | None => Err IndexError
              end
  | PDict _ => Err KeyError
  | _ => Err TypeError
  end.

(** [v[k]] for a string key [k]. *)
Definition py_getitem (v : pyval) (k : string) : result pyval :=
  match v with
  | PDict d => match assoc_get k d with Some x => Ok x | None => Err KeyError end
  | PList _ | PStr _ => Err TypeError
  | _ => Err TypeError
  end.

(** [v.get(k)] and [v.get(k, default)]: only a dict has the method. *)
Definition py_get_default (v : pyval) (k : string) (default : pyval) : result pyval :=
  match v with
  | PDict d => Ok (match assoc_get k d with Some x => x | None => default end)
  | _ => Err AttributeError
  end.

Definition py_get (v : pyval) (k : string) : result pyval :=
  py_get_default v k PNone.

(** [k in v] for a string [k]. *)
Definition py_contains (v : pyval) (k : string) : result bool :=
  match v with
  | PDict d => Ok (match assoc_get k d with Some _ => true | None => false end)
  | PList l => Ok (existsb (fun x => match x with PStr s => String.eqb s k | _ => false end) l)
  | PStr s => Ok (match index 0 k s with Some _ => true | None => false end)
  | _ => Err TypeError
  end.

(** [a == b] on decoded values: numbers and booleans compare by value,
    lists element by element, dictionaries as sets of items. *)
Fixpoint py_eq (a b : pyval) {struct a} : bool :=
  match a, b with
  | PNone, PNone => true
  | PBool x, PBool y => Bool.eqb x y
  | PBool x, PInt y => (if x then 1 else 0) =? y
  | PInt x, PBool y => x =? (if y then 1 else 0)
  | PInt x, PInt y => x =? y
  | PStr x, PStr y => String.eqb x y
  | PList l1, PList l2 =>
      (fix go (l1 l2 : list pyval) {struct l1} : bool :=
         match l1, l2 with
         | [], [] => true
         | x :: xs, y :: ys => py_eq x y && go xs ys
         | _, _ => false
         end) l1 l2
  | PDict d1, PDict d2 =>
      Nat.eqb (List.length d1) (List.length d2) &&
      (fix go (d : list (string * pyval)) {struct d} : bool :=
         match d with
         | [] => true
         | (k, v) :: rest =>
             match assoc_get k d2 with
             | Some v' => py_eq v v'
             | None => false
             end && go rest
         end) d1
  | _, _ => false
  end.

(** [hash(v)] raises [TypeError] on lists and dictionaries. *)
Definition hashable (v : pyval) : bool :=
  match v with
  | PList _ | PDict _ => false
  | _ => true
  end.

(** ** [datetime]

    A [datetime] value: the civil fields and, for an aware value, the UTC
    offset in microseconds ([tzinfo.utcoffset]); [None] is a naive value.
    [datetime.fromisoformat] yields fixed-offset time zones only, for which
    [fold] plays no part in a comparison. *)

Record datetime : Type := mkDatetime {
  year : Z; month : Z; day : Z;
  hour : Z; minute : Z; second : Z; microsecond : Z;
  utcoffset : option Z
}.

(** [datetime(2024, 9, 1)] *)
Definition FALLBACK_DATE : datetime := mkDatetime 2024 9 1 0 0 0 0 None.

Definition is_leap (y : Z) : bool :=
  (y mod 4 =? 0) && (negb (y mod 100 =? 0) || (y mod 400 =? 0)).

Definition days_before_year (y : Z) : Z :=
  let p := y - 1 in p * 365 + p / 4 - p / 100 + p / 400.

Definition DAYS_BEFORE_MONTH : list Z :=
  [0; 0; 31; 59; 90; 120; 151; 181; 212; 243; 273; 304; 334].

Definition days_before_month (y m : Z) : Z :=
  nth (Z.to_nat m) DAYS_BEFORE_MONTH 0 + (if (2 <? m) && is_leap y then 1 else 0).

Definition ymd2ord (y m d : Z) : Z :=
  days_before_year y + days_before_month y m + d.

(** Microseconds since the start of the proleptic calendar, local time. *)
Definition local_us (t : datetime) : Z :=
  ((ymd2ord (year t) (month t) (day t) * 86400
    + hour t * 3600 + minute t * 60 + second t) * 1000000) + microsecond t.

Definition fields (t : datetime) : list Z :=
  [year t; month t; day t; hour t; minute t; second t; microsecond t].

(** Three-way comparison of field tuples, [-1], [0] or [1]. *)
Fixpoint cmp_fields (a b : list Z) : Z :=
  match a, b with
  | [], [] => 0
  | [], _ :: _ => -1
  | _ :: _, [] => 1
  | x :: xs, y :: ys =>
      if x =? y then cmp_fields xs ys else if x <? y then -1 else 1
  end.

Definition option_Z_eqb (a b : option Z) : bool :=
  match a, b with
  | None, None => true
  | Some x, Some y => x =? y
  | _, _ => false
  end.

(** [datetime._cmp(self, other, allow_mixed)]: values with equal offsets
    compare by their fields; a naive and an aware value are unequal under
    [==] (the arbitrary non-zero [2]) and a [TypeError] under an ordering;
    two aware values with different offsets compare by their UTC instants. *)
Definition dt_cmp (a b : datetime) (allow_mixed : bool) : result Z :=
  if option_Z_eqb (utcoffset a) (utcoffset b) then
    Ok (cmp_fields (fields a) (fields b))
  else
    match utcoffset a, utcoffset b with
    | Some oa, Some ob =>
        let diff := (local_us a - oa) - (local_us b - ob) in
        Ok (if diff <? 0 then -1 else if diff =? 0 then 0 else 1)
    | _, _ => if allow_mixed then Ok 2 else Err TypeError
    end.

(** [a == b] never raises. *)
Definition dt_eq (a b : datetime) : bool :=
  match dt_cmp a b true with
  | Ok c => c =? 0
  | Err _ => false
  end.

(** [a < b] *)
Definition dt_lt (a b : datetime) : result bool :=
  c <- dt_cmp a b false ;; Ok (c <? 0).


(** ** [MarketingAPI.py] *)

(** Ranks of the statuses of a marketing request. *)
Definition STATUS_ORDER : list (string * Z) :=
  [ ("Not Started", 0);
    ("Need Visuals", 1);
    ("Drafted", 2);
    ("Confirmed", 3);
    ("Posted", 4) ].

(** A rank is an [int] of [STATUS_ORDER] or [float('inf')]. *)
Inductive rank : Type :=
| Fin (n : Z)
| Inf.

Definition rank_eqb (a b : rank) : bool :=
  match a, b with
  | Fin x, Fin y => x =? y
  | Inf, Inf => true
  | _, _ => false
  end.

Definition rank_ltb (a b : rank) : bool :=
  match a, b with
  | Fin x, Fin y => x <? y
  | Fin _, Inf => true
  | Inf, _ => false
  end.

(** [STATUS_ORDER.get(key, float('inf'))]: the key is hashed first; the keys
    of the table are strings, so only an equal string finds an entry. *)
Definition STATUS_ORDER_get (key : pyval) : result rank :=
  if hashable key then
    match key with
    | PStr s => Ok (match assoc_get s STATUS_ORDER with
                    | Some n => Fin n
                    | None => Inf
                    end)
    | _ => Ok Inf
    end
  else Err TypeError.

(** The dataclass.  [get_first] hands back whatever the page holds at
    [val[0][0]], so the scalar fields carry arbitrary decoded values; [PNone]
    is Python's [None]. *)
Record MarketingRequest : Type := mkMarketingRequest {
  id : pyval;
  title : pyval;
  event : pyval;
  content_type : pyval;
  status : pyval;
  content_summary : pyval;
  post_date : option datetime;
  final_post : pyval;
  visuals : pyval
}.

(** [self.post_date if self.post_date is not None else datetime(2024, 9, 1)] *)
Definition date_key (self : MarketingRequest) : datetime :=
  match post_date self with
  | Some d => d
  | None => FALLBACK_DATE
  end.

(** [MarketingRequest._sort_key] *)
Definition _sort_key (self : MarketingRequest) : result (rank * datetime) :=
  status_rank <- STATUS_ORDER_get (status self) ;;
  Ok (status_rank, date_key self).

(** [a == b] and [a < b] on two key tuples: the first differing component
    (under [==]) decides. *)
Definition key_eq (a b : rank * datetime) : bool :=
  rank_eqb (fst a) (fst b) && dt_eq (snd a) (snd b).

Definition key_lt (a b : rank * datetime) : result bool :=
  if rank_eqb (fst a) (fst b) then
    if dt_eq (snd a) (snd b) then Ok false
    else dt_lt (snd a) (snd b)
  else Ok (rank_ltb (fst a) (fst b)).

Definition __eq__ (self other : MarketingRequest) : result bool :=
  k1 <- _sort_key self ;;
  k2 <- _sort_key other ;;
  Ok (key_eq k1 k2).

Definition __lt__ (self other : MarketingRequest) : result bool :=
  k1 <- _sort_key self ;;
  k2 <- _sort_key other ;;
  key_lt k1 k2.

(** [get_first], the closure of [from_notion_page] over [properties]. *)
Definition get_first (properties : pyval) (prop_key : string) : result pyval :=
  val <- py_get properties prop_key ;;
  if truthy val then
    if isinstance_list val then
      n <- py_len val ;;
      if 0 <? n then
        v0 <- py_index val 0 ;;
        if isinstance_list v0 then
          n0 <- py_len v0 ;;
          if 0 <? n0 then py_index v0 0
          else Ok PNone
        else Ok PNone
      else Ok PNone
    else Ok PNone
  else Ok PNone.

(** [properties["{Rrz"][0][1][0][1].get("start_date")] *)
Definition start_date (properties : pyval) : result pyval :=
  a <- py_getitem properties "{Rrz" ;;
  b <- py_index a 0 ;;
  c <- py_index b 1 ;;
  d <- py_index c 0 ;;
  e <- py_index d 1 ;;
  py_get e "start_date".

Section Mapper.

(** [datetime.fromisoformat] on a string: a datetime, or [ValueError].  The
    grammar it accepts differs between Python versions, so the mapper is
    stated over any such parser. *)
Variable fromisoformat : string -> result datetime.

Definition datetime_fromisoformat (date_str : pyval) : result datetime :=
  match date_str with
  | PStr s => fromisoformat s
  | _ => Err TypeError
  end.

(** The branch of [from_notion_page] that computes [post_date].  The two
    [print] calls of the handler write to stdout and change nothing else. *)
Definition read_post_date (properties : pyval) : result (option datetime) :=
  present <- py_contains properties "{Rrz" ;;
  if present then
    try_except
      (date_str <- start_date properties ;;
       if truthy date_str then
         d <- datetime_fromisoformat date_str ;; Ok (Some d)
       else Ok (Some FALLBACK_DATE))
      (fun _ => Ok (Some FALLBACK_DATE))
  else Ok (Some FALLBACK_DATE).

(** [MarketingRequest.from_notion_page] *)
Definition from_notion_page (page : pyval) : result MarketingRequest :=
  properties <- py_get_default page "properties" (PDict []) ;;
  t <- get_first properties "title" ;;
  let title := if truthy t then t else PStr "" in
  event <- get_first properties ">zXz" ;;
  content_type <- get_first properties "aJ@j" ;;
  status <- get_first properties "nSLy" ;;
  content_summary <- get_first properties "[B|e" ;;
  post_date <- read_post_date properties ;;
  id <- py_get page "id" ;;
  Ok (mkMarketingRequest id title event content_type status content_summary
        post_date PNone PNone).

End Mapper.

(** ** [list.sort()] on requests

    Python's sort is stable and calls [__lt__] only; an exception raised by a
    comparison aborts it.  It is modelled by a stable insertion sort that asks
    [pivot < element] as the binary insertion of CPython does.  When no
    comparison can raise and [<] is a strict weak order every stable sort
    returns the same list; which pairs are compared, and so whether an
    exception surfaces on data that cannot be compared, is particular to the
    algorithm. *)

Fixpoint sort_insert (pivot : MarketingRequest) (sorted : list MarketingRequest)
  : result (list MarketingRequest) :=
  match sorted with
  | [] => Ok [pivot]
  | y :: ys =>
      b <- __lt__ pivot y ;;
      if b then Ok (pivot :: y :: ys)
      else rest <- sort_insert pivot ys ;; Ok (y :: rest)
  end.

Fixpoint sort_from (sorted rest : list MarketingRequest)
  : result (list MarketingRequest) :=
  match rest with
  | [] => Ok sorted
  | x :: xs => s <- sort_insert x sorted ;; sort_from s xs
  end.

Definition list_sort (l : list MarketingRequest) : result (list MarketingRequest) :=
  sort_from [] l.

(** ** [MarketingRequestCollection] *)

Record MarketingRequestCollection : Type := mkCollection {
  requests : list MarketingRequest
}.

(** [dict.values()] *)
Definition py_values (v : pyval) : result (list pyval) :=
  match v with
  | PDict d => Ok (map snd d)
  | _ => Err AttributeError
  end.

(** A [for] loop that appends the result of [f] for every element and lets
    the first exception through. *)
Fixpoint for_each {A B : Type} (f : A -> result B) (l : list A) : result (list B) :=
  match l with
  | [] => Ok []
  | x :: xs => y <- f x ;; ys <- for_each f xs ;; Ok (y :: ys)
  end.

Section Collection.

Variable fromisoformat : string -> result datetime.

(** The body of the loop of [from_record_map]. *)
Definition block_request (block_data : pyval) : result MarketingRequest :=
  value <- py_get_default block_data "value" (PDict []) ;;
  from_notion_page fromisoformat value.

(** [record_map.get("recordMap", {}).get("block", {}).values()] *)
Definition block_values (record_map : pyval) : result (list pyval) :=
  rm <- py_get_default record_map "recordMap" (PDict []) ;;
  blocks <- py_get_default rm "block" (PDict []) ;;
  py_values blocks.

(** The requests of [from_record_map] before [requests.sort()]. *)
Definition mapped_requests (record_map : pyval) : result (list MarketingRequest) :=
  values <- block_values record_map ;;
  for_each block_request values.

(** [MarketingRequestCollection.from_record_map] *)
Definition from_record_map (record_map : pyval) : result MarketingRequestCollection :=
  requests <- mapped_requests record_map ;;
  sorted <- list_sort requests ;;
  Ok (mkCollection sorted).

End Collection.

(** [MarketingRequestCollection._fetch] *)
Definition _fetch (self : MarketingRequestCollection) (val : pyval)
    (key : MarketingRequest -> pyval) : list MarketingRequest :=
  filter (fun req => py_eq (key req) val) (requests self).

Definition fetch_requests_by_status (self : MarketingRequestCollection)
    (status_value : string) : list MarketingRequest :=
  _fetch self (PStr status_value) (fun req => status req).

Definition fetch_requests_by_type (self : MarketingRequestCollection)
    (content_type_value : string) : list MarketingRequest :=
  _fetch self (PStr content_type_value) (fun req => content_type req).

(** Attribute lookup on an instance: the instance dictionary (set by
    [__init__]), then the names bound in the class body, then what every
    class has from [object] and [type], all of them double-underscore names. *)
Definition instance_attributes : list string := ["requests"].

Definition class_attributes : list string :=
  [ "__init__"; "from_record_map"; "_fetch"; "fetch_requests_by_status";
    "fetch_requests_by_type"; "__iter__"; "__len__"; "__getitem__"; "__repr__" ].

Definition object_attributes : list string :=
  [ "__class__"; "__delattr__"; "__dict__"; "__dir__"; "__doc__"; "__eq__";
    "__format__"; "__ge__"; "__getattribute__"; "__getstate__"; "__gt__";
    "__hash__"; "__init_subclass__"; "__le__"; "__lt__"; "__module__";
    "__ne__"; "__new__"; "__reduce__"; "__reduce_ex__"; "__setattr__";
    "__sizeof__"; "__str__"; "__subclasshook__"; "__weakref__" ].

Inductive attribute : Type :=
| InstanceAttribute (name : string)
| ClassAttribute (name : string)
| ObjectAttribute (name : string).

Definition collection_getattr (self : MarketingRequestCollection) (name : string)
  : result attribute :=
  if existsb (String.eqb name) instance_attributes then Ok (InstanceAttribute name)
  else if existsb (String.eqb name) class_attributes then Ok (ClassAttribute name)
  else if existsb (String.eqb name) object_attributes then Ok (ObjectAttribute name)
  else Err AttributeError.

(** ** [SlackInterconnect.py] *)

Record response : Type := mkResponse {
  status_code : Z;
  text : string
}.

(** [str(n)] for an [int]. *)
Definition py_str_int (n : Z) : string :=
  NilEmpty.string_of_int (Z.to_int n).

Definition newline : string := String (ascii_of_nat 10) EmptyString.

Definition slack_error_message (r : response) : string :=
  ("Request to Slack returned an error " ++ py_str_int (status_code r)
   ++ ", the response is:" ++ newline ++ text r)%string.

Definition slack_payload (message username icon_emoji : string) (markdown : bool)
  : pyval :=
  PDict [ ("text", PStr message);
          ("username", PStr username);
          ("icon_emoji", PStr icon_emoji);
          ("mrkdwn", PBool markdown) ].

Section Slack.

(** [requests.post(url, json=payload)]: a response, or the exception the
    transport raises. *)
Variable requests_post : string -> pyval -> result response.

Definition send_slack_webhook_message (webhook_url message username icon_emoji : string)
    (markdown : bool) : result response :=
  let payload := slack_payload message username icon_emoji markdown in
  response <- requests_post webhook_url payload ;;
  if negb (status_code response =? 200) then
    Err (Exception (slack_error_message response))
  else Ok response.

End Slack.

(** ** [NotionAPI.py] and the polling loop of [SlackFlask.py] *)

Section Poller.

Variable fromisoformat : string -> result datetime.

(** [query_marketing_requests], given what the HTTP exchange
    ([requests.post], [raise_for_status], [response.json()]) produced. *)
Definition query_marketing_requests (http : result pyval)
  : result MarketingRequestCollection :=
  data <- http ;;
  marketing_requests <- from_record_map fromisoformat data ;;
  sorted <- list_sort (requests marketing_requests) ;;
  Ok (mkCollection sorted).

(** One turn of the [while True] loop of [fetch_notion_data], as a function
    of the global [notion_data]: the assignment happens only when the query
    returns, [except Exception] absorbs what it raises, and the turn ends in
    [time.sleep(60)].  The first component is how the body ends. *)
Definition poll_cycle (http : result pyval)
    (notion_data : option MarketingRequestCollection)
  : result unit * option MarketingRequestCollection :=
  match try_except
          (c <- query_marketing_requests http ;; Ok (Some c))
          (fun _ => Ok notion_data) with
  | Ok d => (Ok tt, d)
  | Err e => (Err e, notion_data)
  end.

Inductive loop_state : Type :=
| Running (notion_data : option MarketingRequestCollection)
| Exited (e : exn) (notion_data : option MarketingRequestCollection).

(** [fetch_notion_data] after at most [turns] turns; [https n] is the HTTP
    exchange of the turn that starts when [n] turns are still ahead. *)
Fixpoint fetch_notion_data (turns : nat) (https : nat -> result pyval)
    (notion_data : option MarketingRequestCollection) : loop_state :=
  match turns with
  | O => Running notion_data
  | S n =>
      match poll_cycle (https n) notion_data with
      | (Ok _, d) => fetch_notion_data n https d
      | (Err e, d) => Exited e d
      end
  end.

End Poller.

(** The attribute lookup [notion_data.filter_by_criterion] with which the
    [/getweeklyschedule] handler starts. *)
Definition weekly_schedule_lookup (notion_data : option MarketingRequestCollection)
  : result attribute :=
  match notion_data with
  | Some c => collection_getattr c "filter_by_criterion"
  | None => Err AttributeError
  end.

(** What the [/getbacklog] handler reads from the global: [None] has no
    [fetch_requests_by_status]. *)
Definition backlog_requests (notion_data : option MarketingRequestCollection)
  : result (list MarketingRequest) :=
  match notion_data with
  | Some c => Ok (fetch_requests_by_status c "Not Started")
  | None => Err AttributeError
  end.

(** ** A parser for the examples

    The date-only form [YYYY-MM-DD], which every version of
    [datetime.fromisoformat] reads as midnight of that day, naive. *)

Definition digit (c : ascii) : option Z :=
  let n := Z.of_nat (nat_of_ascii c) in
  if (48 <=? n) && (n <=? 57) then Some (n - 48) else None.

Fixpoint number (cs : list ascii) (acc : Z) : option Z :=
  match cs with
  | [] => Some acc
  | c :: rest => match digit c with
                 | Some d => number rest (acc * 10 + d)
                 | None => None
                 end
  end.

Definition days_in_month (y m : Z) : Z :=
  if (m =? 2) && is_leap y then 29
  else nth (Z.to_nat m) [0; 31; 28; 31; 30; 31; 30; 31; 31; 30; 31; 30; 31] 0.

Definition iso_date (s : string) : result datetime :=
  match list_ascii_of_string s with
  | [y1; y2; y3; y4; s1; m1; m2; s2; d1; d2] =>
      if Ascii.eqb s1 "-" && Ascii.eqb s2 "-" then
        match number [y1; y2; y3; y4] 0, number [m1; m2] 0, number [d1; d2] 0 with
        | Some y, Some m, Some d =>
            if (1 <=? y) && (1 <=? m) && (m <=? 12) && (1 <=? d) && (d <=? days_in_month y m)
            then Ok (mkDatetime y m d 0 0 0 0 None)
            else Err ValueError
        | _, _, _ => Err ValueError
        end
      else Err ValueError
  | _ => Err ValueError
  end.

(** ** What [@total_ordering] adds to [MarketingRequest]

    The class defines [__eq__] and [__lt__]; the decorator derives the other
    three comparisons from [__lt__], and [!=] is the negation of [__eq__]. *)

Definition __ne__ (self other : MarketingRequest) : result bool :=
  b <- __eq__ self other ;; Ok (negb b).

(** [op_result or self == other] *)
Definition __le__ (self other : MarketingRequest) : result bool :=
  op_result <- __lt__ self other ;;
  if op_result then Ok true else __eq__ self other.

(** [not op_result and self != other] *)
Definition __gt__ (self other : MarketingRequest) : result bool :=
  op_result <- __lt__ self other ;;
  if negb op_result then __ne__ self other else Ok false.

(** [not op_result] *)
Definition __ge__ (self other : MarketingRequest) : result bool :=
  op_result <- __lt__ self other ;;
  Ok (negb op_result).

(** ** [len] and subscripting of the collection *)

Definition __len__ (self : MarketingRequestCollection) : Z :=
  Z.of_nat (List.length (requests self)).

(** [self.requests[index]] for an [int]: a negative index counts from the
    end, anything outside the list is an [IndexError]. *)
Definition __getitem__ (self : MarketingRequestCollection) (index : Z)
  : result MarketingRequest :=
  let n := __len__ self in
  let i := if index <? 0 then index + n else index in
  if (0 <=? i) && (i <? n) then
    match nth_error (requests self) (Z.to_nat i) with
    | Some r => Ok r
    | None => Err IndexError
    end
  else Err IndexError.

(** ** Attribute lookup on a request

    The fields are instance attributes set by the generated [__init__]; the
    class body, [@total_ordering] and [@dataclass] bind the class names. *)

Definition request_instance_attributes : list string :=
  [ "id"; "title"; "event"; "content_type"; "status"; "content_summary";
    "post_date"; "final_post"; "visuals" ].

Definition request_class_attributes : list string :=
  [ "from_notion_page"; "__repr__"; "_sort_key"; "__eq__"; "__lt__";
    "__le__"; "__gt__"; "__ge__"; "__init__"; "__hash__"; "__match_args__";
    "__annotations__"; "__dataclass_fields__"; "__dataclass_params__" ].

Definition request_getattr (self : MarketingRequest) (name : string)
  : result attribute :=
  if existsb (String.eqb name) request_instance_attributes then Ok (InstanceAttribute name)
  else if existsb (String.eqb name) request_class_attributes then Ok (ClassAttribute name)
  else if existsb (String.eqb name) object_attributes then Ok (ObjectAttribute name)
  else Err AttributeError.

(** [sep.join(parts)] *)
Fixpoint join (sep : string) (parts : list string) : string :=
  match parts with
  | [] => ""
  | [p] => p
  | p :: rest => (p ++ sep ++ join sep rest)%string
  end.

(** ** The publishers

    Both files call methods by name on requests and on the collection.  A
    call is the attribute lookup followed by the call of what was found; what
    such a call would return is left open. *)

Section Publishers.

Variable fromisoformat : string -> result datetime.
Variable requests_post : string -> pyval -> result response.
Variable call_on_request : MarketingRequest -> attribute -> result string.
Variable call_on_collection :
  MarketingRequestCollection -> attribute -> result (list MarketingRequest).

(** [req.to_markdown()] *)
Definition to_markdown (req : MarketingRequest) : result string :=
  found <- request_getattr req "to_markdown" ;;
  call_on_request req found.

(** [for req in reqs: msg += req.to_markdown() + "\n"] *)
Fixpoint append_markdown (reqs : list MarketingRequest) (msg : string)
  : result string :=
  match reqs with
  | [] => Ok msg
  | req :: rest =>
      line <- to_markdown req ;;
      append_markdown rest (msg ++ line ++ newline)%string
  end.

(** [y.filter_by_criterion(...)] with the two predicates of the callers *)
Definition filter_by_criterion (y : MarketingRequestCollection)
  : result (list MarketingRequest) :=
  found <- collection_getattr y "filter_by_criterion" ;;
  call_on_collection y found.

End Publishers.

Module SlackInterconnect.
Section Functions.

Variable fromisoformat : string -> result datetime.
Variable requests_post : string -> pyval -> result response.
Variable call_on_request : MarketingRequest -> attribute -> result string.
Variable call_on_collection :
  MarketingRequestCollection -> attribute -> result (list MarketingRequest).

(** [http] is the HTTP exchange of [query_marketing_requests]. *)
Definition generate_weekly_backlog_graphics (http : result pyval)
    (webhook_url : string) : result unit :=
  y <- query_marketing_requests fromisoformat http ;;
  msg <- append_markdown call_on_request
           (fetch_requests_by_status y "Not Started") "" ;;
  _ <- send_slack_webhook_message requests_post webhook_url msg
         "Marketing Bot" ":chart_with_upwards_trend:" true ;;
  Ok tt.

(** [today] is [datetime.datetime.now().strftime('%Y-%m-%d')]. *)
Definition generate_posting_schedule (http : result pyval) (today : string)
    (webhook_url : string) : result unit :=
  y <- query_marketing_requests fromisoformat http ;;
  filtered <- filter_by_criterion call_on_collection y ;;
  sorted <- list_sort filtered ;;
  msg <- append_markdown call_on_request sorted
           ("Posting Schedule for The Week of " ++ today ++ ":" ++ newline)%string ;;
  _ <- send_slack_webhook_message requests_post webhook_url msg
         "Marketing Bot" ":chart_with_upwards_trend:" true ;;
  Ok tt.

End Functions.
End SlackInterconnect.

Module SlackFlask.
Section Handlers.

Variable call_on_request : MarketingRequest -> attribute -> result string.
Variable call_on_collection :
  MarketingRequestCollection -> attribute -> result (list MarketingRequest).

Definition jsonify (msg : string) : pyval :=
  PDict [ ("response_type", PStr "in_channel");
          ("text", PStr msg);
          ("mkdwn", PBool true) ].

(** The [/getbacklog] handler, reading the global [notion_data]. *)
Definition generate_weekly_backlog_graphics
    (notion_data : option MarketingRequestCollection) : result pyval :=
  filtered_data <- backlog_requests notion_data ;;
  lines <- for_each (to_markdown call_on_request) filtered_data ;;
  Ok (jsonify (join newline lines)).

(** The [/getweeklyschedule] handler. *)
Definition generate_weekly_posting_schedule
    (notion_data : option MarketingRequestCollection) (today : string)
  : result pyval :=
  filtered_data <- match notion_data with
                   | Some c => filter_by_criterion call_on_collection c
                   | None => Err AttributeError
                   end ;;
  sorted <- list_sort filtered_data ;;
  lines <- for_each (to_markdown call_on_request) sorted ;;
  Ok (jsonify ("Posting Schedule for The Week of " ++ today ++ ":" ++ newline
               ++ join newline lines)%string).

End Handlers.
End SlackFlask.

(** * The vocabulary of the statements *)

(** A status is ranked when it is a key of [STATUS_ORDER]. *)
Definition in_STATUS_ORDER (v : pyval) : bool :=
  match v with
  | PStr s => match assoc_get s STATUS_ORDER with Some _ => true | None => false end
  | _ => false
  end.

(** [d.get(k)] on an association list. *)
Definition prop (d : list (string * pyval)) (k : string) : pyval :=
  match assoc_get k d with
  | Some v => v
  | None => PNone
  end.

(** [page.get("properties", {})] on a page that is a dictionary. *)
Definition properties_of (page : list (string * pyval)) : pyval :=
  match assoc_get "properties" page with
  | Some v => v
  | None => PDict []
  end.

(** The shape [get_first] expects: a non-empty list whose first element is a
    non-empty list. *)
Definition well_shaped (val : pyval) : bool :=
  match val with
  | PList (PList (_ :: _) :: _) => true
  | _ => false
  end.

Definition first_of (val : pyval) : pyval :=
  match val with
  | PList (PList (x :: _) :: _) => x
  | _ => PNone
  end.

(** The page carries no start date: the path to it is missing or broken, or
    what it leads to is falsy. *)
Definition date_missing (properties : pyval) : bool :=
  match start_date properties with
  | Ok v => negb (truthy v)
  | Err _ => true
  end.

(** The block carries no start date. *)
Definition block_date_missing (block_data : pyval) : bool :=
  match py_get_default block_data "value" (PDict []) with
  | Ok (PDict page) => date_missing (properties_of page)
  | _ => true
  end.

(** Requests can be compared with one another without an exception when
    their statuses can be hashed and their dates have one UTC offset [o]
    ([None] for naive dates, as the fallback date is). *)
Definition comparable (o : option Z) (r : MarketingRequest) : Prop :=
  hashable (status r) = true /\ utcoffset (date_key r) = o.

Definition rank_of (r : MarketingRequest) : rank :=
  match STATUS_ORDER_get (status r) with
  | Ok k => k
  | Err _ => Inf
  end.

(** Status rank ascending, then date ascending. *)
Definition request_le (a b : MarketingRequest) : Prop :=
  rank_ltb (rank_of a) (rank_of b) = true \/
  (rank_of a = rank_of b /\
   cmp_fields (fields (date_key a)) (fields (date_key b)) <= 0).

Definition lt_pure (a b : MarketingRequest) : bool :=
  if rank_eqb (rank_of a) (rank_of b)
  then cmp_fields (fields (date_key a)) (fields (date_key b)) <? 0
  else rank_ltb (rank_of a) (rank_of b).

(** The ordering of the data model on what [from_record_map] returns for
    [record_map]: among requests of equal status rank, one built from a block
    without a start date stands after every one built from a block with a
    start date. *)
Definition missing_date_sorts_last (fromisoformat : string -> result datetime)
    (record_map : pyval) : Prop :=
  forall c values,
    from_record_map fromisoformat record_map = Ok c ->
    block_values record_map = Ok values ->
    forall i j bi bj ri rj,
      In bi values -> In bj values ->
      block_request fromisoformat bi = Ok ri ->
      block_request fromisoformat bj = Ok rj ->
      nth_error (requests c) i = Some ri ->
      nth_error (requests c) j = Some rj ->
      STATUS_ORDER_get (status ri) = STATUS_ORDER_get (status rj) ->
      block_date_missing bi = true ->
      block_date_missing bj = false ->
      (j < i)%nat.




Definition contains (s sub : string) : Prop :=
  exists before after, s = (before ++ sub ++ after)%string.

(** Two requests tie when neither key is less than the other: equal rank
    and equal date fields. *)
Definition same_key (k r : MarketingRequest) : bool :=
  rank_eqb (rank_of k) (rank_of r)
  && (cmp_fields (fields (date_key k)) (fields (date_key r)) =? 0).

(** The request of a page without properties. *)
Definition blank_request (page_id : pyval) : MarketingRequest :=
  mkMarketingRequest page_id (PStr "") PNone PNone PNone PNone
    (Some FALLBACK_DATE) PNone PNone.

(** ** Values for the examples *)

Definition request_of (st : pyval) (d : option datetime) : MarketingRequest :=
  mkMarketingRequest PNone (PStr "") PNone PNone st PNone d PNone PNone.

(** The rollup of the source's comment,
    [[[ "-", [ ["d", {"type": "date", "start_date": start}] ] ]]]. *)
Definition date_rollup (start : string) : pyval :=
  PList [PList [PStr "-";
                PList [PList [PStr "d";
                              PDict [("type", PStr "date");
                                     ("start_date", PStr start)]]]]].

Definition block_dated : pyval :=
  PDict [("value",
          PDict [("id", PStr "dated");
                 ("properties",
                  PDict [("title", PList [PList [PStr "Launch post"]]);
                         ("nSLy", PList [PList [PStr "Drafted"]]);
                         ("{Rrz", date_rollup "2025-02-03")])])].

Definition block_undated : pyval :=
  PDict [("value",
          PDict [("id", PStr "undated");
                 ("properties",
                  PDict [("title", PList [PList [PStr "Teaser"]]);
                         ("nSLy", PList [PList [PStr "Drafted"]])])])].

Definition two_block_record_map : pyval :=
  PDict [("recordMap",
          PDict [("block",
                  PDict [("block-1", block_dated); ("block-2", block_undated)])])].

Definition status_block (name status_value start : string) : pyval :=
  PDict [("value",
          PDict [("id", PStr name);
                 ("properties",
                  PDict [("nSLy", PList [PList [PStr status_value]]);
                         ("{Rrz", date_rollup start)])])].

Definition three_block_record_map : pyval :=
  PDict [("recordMap",
          PDict [("block",
                  PDict [("block-1", status_block "p" "Posted" "2025-03-01");
                         ("block-2", status_block "n" "Not Started" "2025-03-02");
                         ("block-3", status_block "c" "Confirmed" "2025-03-03")])])].

Definition request_dated : MarketingRequest :=
  mkMarketingRequest (PStr "dated") (PStr "Launch post") PNone PNone
    (PStr "Drafted") PNone (Some (mkDatetime 2025 2 3 0 0 0 0 None)) PNone PNone.

Definition request_undated : MarketingRequest :=
  mkMarketingRequest (PStr "undated") (PStr "Teaser") PNone PNone
    (PStr "Drafted") PNone (Some FALLBACK_DATE) PNone PNone.

(** * Properties *)

(** ** Ranks and dates *)

Lemma rank_eqb_eq (a b : rank) : rank_eqb a b = true <-> a = b.
Proof.
  destruct a as [x|], b as [y|]; simpl; split; intro H;
    try discriminate; try reflexivity.
  - apply Z.eqb_eq in H. now subst.
  - injection H as ->. apply Z.eqb_refl.
Qed.

Lemma rank_eqb_refl (a : rank) : rank_eqb a a = true.
Proof. now apply rank_eqb_eq. Qed.

Lemma rank_eqb_sym (a b : rank) : rank_eqb a b = rank_eqb b a.
Proof. destruct a, b; simpl; auto using Z.eqb_sym. Qed.

Lemma rank_ltb_asym (a b : rank) : rank_ltb a b = true -> rank_ltb b a = false.
Proof.
  destruct a as [x|], b as [y|]; simpl; intro H; try discriminate; auto.
  apply Z.ltb_lt in H. apply Z.ltb_ge. lia.
Qed.

Lemma rank_ltb_neq (a b : rank) : rank_ltb a b = true -> rank_eqb a b = false.
Proof.
  destruct a as [x|], b as [y|]; simpl; intro H; try discriminate; auto.
  apply Z.ltb_lt in H. apply Z.eqb_neq. lia.
Qed.

Lemma rank_ltb_trans (a b c : rank) :
  rank_ltb a b = true -> rank_ltb b c = true -> rank_ltb a c = true.
Proof.
  destruct a as [x|], b as [y|], c as [z|]; simpl; intros H1 H2;
    try discriminate; auto.
  apply Z.ltb_lt in H1, H2. apply Z.ltb_lt. lia.
Qed.

Lemma rank_total (a b : rank) :
  rank_ltb a b = true \/ a = b \/ rank_ltb b a = true.
Proof.
  destruct a as [x|], b as [y|]; simpl; auto.
  destruct (Z.lt_trichotomy x y) as [H|[H|H]].
  - left. now apply Z.ltb_lt.
  - right. left. now subst.
  - right. right. now apply Z.ltb_lt.
Qed.

Lemma STATUS_ORDER_get_hashable (v : pyval) :
  hashable v = true ->
  STATUS_ORDER_get v = Ok (match v with
                           | PStr s => match assoc_get s STATUS_ORDER with
                                       | Some n => Fin n
                                       | None => Inf
                                       end
                           | _ => Inf
                           end).
Proof.
  unfold STATUS_ORDER_get. intros ->. now destruct v.
Qed.

Lemma STATUS_ORDER_get_ranked (v : pyval) :
  in_STATUS_ORDER v = true -> exists n, STATUS_ORDER_get v = Ok (Fin n).
Proof.
  unfold in_STATUS_ORDER, STATUS_ORDER_get, hashable.
  destruct v; try discriminate.
  destruct (assoc_get s STATUS_ORDER) as [n|]; [eauto | discriminate].
Qed.

Lemma STATUS_ORDER_get_unranked (v : pyval) :
  hashable v = true -> in_STATUS_ORDER v = false -> STATUS_ORDER_get v = Ok Inf.
Proof.
  intros Hh Hu. rewrite (STATUS_ORDER_get_hashable v Hh).
  unfold in_STATUS_ORDER in Hu.
  destruct v; try reflexivity.
  now destruct (assoc_get s STATUS_ORDER).
Qed.

Lemma cmp_fields_antisym (a b : list Z) : cmp_fields b a = - cmp_fields a b.
Proof.
  revert b. induction a as [|x xs IH]; intros [|y ys]; simpl; try reflexivity.
  rewrite (Z.eqb_sym y x).
  destruct (Z.eqb_spec x y) as [->|Hne]; [apply IH|].
  destruct (Z.ltb_spec x y), (Z.ltb_spec y x); try reflexivity; lia.
Qed.

Lemma cmp_fields_trans (a b c : list Z) :
  cmp_fields a b <= 0 -> cmp_fields b c <= 0 -> cmp_fields a c <= 0.
Proof.
  revert b c. induction a as [|x xs IH]; intros [|y ys] [|z zs]; simpl;
    try lia.
  destruct (Z.eqb_spec x y) as [->|Hxy].
  - destruct (Z.eqb_spec y z) as [->|Hyz]; [apply IH|].
    destruct (Z.ltb_spec y z); lia.
  - destruct (Z.ltb_spec x y); [|lia].
    destruct (Z.eqb_spec y z) as [->|Hyz].
    + intros _ _. destruct (Z.eqb_spec x z); [lia|].
      destruct (Z.ltb_spec x z); lia.
    + destruct (Z.ltb_spec y z); [|lia].
      intros _ _. destruct (Z.eqb_spec x z); [lia|].
      destruct (Z.ltb_spec x z); lia.
Qed.

Lemma option_Z_eqb_sym (a b : option Z) : option_Z_eqb a b = option_Z_eqb b a.
Proof. destruct a, b; simpl; auto using Z.eqb_sym. Qed.

Lemma option_Z_eqb_refl (a : option Z) : option_Z_eqb a a = true.
Proof. destruct a; simpl; auto using Z.eqb_refl. Qed.

(** A date that is earlier under [<] is unequal under [==], and the reverse
    comparison answers [False]. *)
Lemma dt_lt_true (a b : datetime) :
  dt_lt a b = Ok true ->
  dt_eq a b = false /\ dt_eq b a = false /\ dt_lt b a = Ok false.
Proof.
  unfold dt_lt, dt_eq, dt_cmp. rewrite (option_Z_eqb_sym (utcoffset b)).
  rewrite (cmp_fields_antisym (fields a) (fields b)).
  generalize (cmp_fields (fields a) (fields b)) as c.
  generalize (local_us a) as ua. generalize (local_us b) as ub.
  intros ub ua c.
  destruct (option_Z_eqb (utcoffset a) (utcoffset b)); cbn [bind].
  - intros [= H]. apply Z.ltb_lt in H.
    repeat split; try (apply Z.eqb_neq; lia).
    f_equal. apply Z.ltb_ge. lia.
  - destruct (utcoffset a) as [oa|], (utcoffset b) as [ob|]; cbn [bind];
      try discriminate.
    destruct (Z.ltb_spec (ua - oa - (ub - ob)) 0) as [Hlt|Hge].
    + intros _.
      destruct (Z.ltb_spec (ub - ob - (ua - oa)) 0); [lia|].
      destruct (Z.eqb_spec (ub - ob - (ua - oa)) 0); [lia|].
      repeat split; reflexivity.
    + destruct (Z.eqb_spec (ua - oa - (ub - ob)) 0); intros [= H];
        apply Z.ltb_lt in H; lia.
Qed.

(** ** The sort key *)

Lemma sort_key_hashable (r : MarketingRequest) :
  hashable (status r) = true ->
  exists k, STATUS_ORDER_get (status r) = Ok k /\ _sort_key r = Ok (k, date_key r).
Proof.
  intros Hh. unfold _sort_key.
  rewrite (STATUS_ORDER_get_hashable _ Hh). cbn [bind]. eauto.
Qed.

(** C1.  For any two requests whose statuses can be hashed (every status the
    dataclass declares, [None] or a string, can), with [d1] and [d2] their
    post dates, a [None] post date counting as 2024-09-01: a request whose
    status is ranked in [STATUS_ORDER] is less than one whose status is not,
    and never the other way round; between two requests of equal rank the one
    whose post date is earlier is the lesser one; and the sort key of a
    request is its rank with that date. *)
Theorem sort_key_ranked_before_unranked_then_date
    (r1 r2 : MarketingRequest) (d1 d2 : datetime) :
  hashable (status r1) = true ->
  hashable (status r2) = true ->
  post_date r1 = Some d1 \/
    (post_date r1 = None /\ d1 = mkDatetime 2024 9 1 0 0 0 0 None) ->
  post_date r2 = Some d2 \/
    (post_date r2 = None /\ d2 = mkDatetime 2024 9 1 0 0 0 0 None) ->
  (in_STATUS_ORDER (status r1) = true ->
   in_STATUS_ORDER (status r2) = false ->
   __lt__ r1 r2 = Ok true /\ __lt__ r2 r1 = Ok false)
  /\ (STATUS_ORDER_get (status r1) = STATUS_ORDER_get (status r2) ->
      dt_lt d1 d2 = Ok true ->
      __lt__ r1 r2 = Ok true /\ __lt__ r2 r1 = Ok false)
  /\ (exists k1 k2, _sort_key r1 = Ok (k1, d1) /\ _sort_key r2 = Ok (k2, d2)).
Proof.
  intros H1 H2 Hd1 Hd2.
  assert (E1 : date_key r1 = d1).
  { unfold date_key. destruct Hd1 as [->|[-> ->]]; reflexivity. }
  assert (E2 : date_key r2 = d2).
  { unfold date_key. destruct Hd2 as [->|[-> ->]]; reflexivity. }
  destruct (sort_key_hashable r1 H1) as (k1 & Hk1 & Hs1).
  destruct (sort_key_hashable r2 H2) as (k2 & Hk2 & Hs2).
  rewrite E1 in Hs1. rewrite E2 in Hs2.
  unfold __lt__. rewrite Hs1, Hs2. cbn [bind]. unfold key_lt. cbn [fst snd].
  split; [|split].
  - intros Hr Hu.
    destruct (STATUS_ORDER_get_ranked _ Hr) as (n & Hn).
    rewrite (STATUS_ORDER_get_unranked _ H2 Hu) in Hk2.
    rewrite Hn in Hk1. injection Hk1 as <-. injection Hk2 as <-.
    split; reflexivity.
  - intros Heq Hearlier.
    rewrite Hk1, Hk2 in Heq. injection Heq as ->.
    rewrite rank_eqb_refl.
    destruct (dt_lt_true _ _ Hearlier) as (-> & -> & ->).
    split; [exact Hearlier | reflexivity].
  - eauto.
Qed.

Lemma sort_key_ranked_before_unranked_then_date_witness :
  (__lt__ (request_of (PStr "Posted") None) (request_of PNone None) = Ok true
   /\ __lt__ (request_of PNone None) (request_of (PStr "Posted") None) = Ok false)
  /\ (__lt__ (request_of (PStr "Drafted") (Some (mkDatetime 2025 6 1 0 0 0 0 None)))
             (request_of (PStr "Drafted") (Some (mkDatetime 2026 1 1 0 0 0 0 None)))
      = Ok true
      /\ __lt__ (request_of (PStr "Drafted") (Some (mkDatetime 2026 1 1 0 0 0 0 None)))
                (request_of (PStr "Drafted") (Some (mkDatetime 2025 6 1 0 0 0 0 None)))
         = Ok false)
  /\ (__lt__ (request_of (PStr "Drafted") None)
             (request_of (PStr "Drafted") (Some (mkDatetime 2025 2 3 0 0 0 0 None)))
      = Ok true).
Proof.
  split; [|split].
  - exact (proj1 (sort_key_ranked_before_unranked_then_date
             (request_of (PStr "Posted") None) (request_of PNone None)
             (mkDatetime 2024 9 1 0 0 0 0 None) (mkDatetime 2024 9 1 0 0 0 0 None)
             eq_refl eq_refl
             (or_intror (conj eq_refl eq_refl))
             (or_intror (conj eq_refl eq_refl))) eq_refl eq_refl).
  - exact (proj1 (proj2 (sort_key_ranked_before_unranked_then_date
             (request_of (PStr "Drafted") (Some (mkDatetime 2025 6 1 0 0 0 0 None)))
             (request_of (PStr "Drafted") (Some (mkDatetime 2026 1 1 0 0 0 0 None)))
             (mkDatetime 2025 6 1 0 0 0 0 None) (mkDatetime 2026 1 1 0 0 0 0 None)
             eq_refl eq_refl (or_introl eq_refl) (or_introl eq_refl)))
             eq_refl eq_refl).
  - exact (proj1 (proj1 (proj2 (sort_key_ranked_before_unranked_then_date
             (request_of (PStr "Drafted") None)
             (request_of (PStr "Drafted") (Some (mkDatetime 2025 2 3 0 0 0 0 None)))
             (mkDatetime 2024 9 1 0 0 0 0 None) (mkDatetime 2025 2 3 0 0 0 0 None)
             eq_refl eq_refl
             (or_intror (conj eq_refl eq_refl)) (or_introl eq_refl)))
             eq_refl eq_refl)).
Defined.

(** ** The record mapper on a page whose properties are a dictionary *)

Lemma get_first_dict (d : list (string * pyval)) (k : string) :
  get_first (PDict d) k = Ok (first_of (prop d k)).
Proof.
  unfold get_first, py_get, py_get_default, prop. cbn [bind].
  destruct (assoc_get k d) as [val|]; [|reflexivity].
  destruct val as [| b | z | s | l | dd]; cbn [truthy isinstance_list first_of].
  - reflexivity.
  - now destruct b.
  - now destruct (negb (z =? 0)).
  - now destruct (negb (String.eqb s "")).
  - destruct l as [|v0 rest]; [reflexivity|].
    cbn. destruct v0 as [| | | | l0 |]; cbn; try reflexivity.
    destruct l0; reflexivity.
  - now destruct dd.
Qed.

Lemma first_of_ill_shaped (val : pyval) :
  well_shaped val = false -> first_of val = PNone.
Proof.
  destruct val as [| | | | l |]; try reflexivity.
  destruct l as [|v0 rest]; [reflexivity|].
  destruct v0 as [| | | | l0 |]; try reflexivity.
  destruct l0; [reflexivity | discriminate].
Qed.

Lemma get_first_not_dict (v : pyval) (k : string) :
  match v with PDict _ => False | _ => True end ->
  get_first v k = Err AttributeError.
Proof. destruct v; simpl; intros H; try reflexivity; contradiction. Qed.

Section MapperFacts.

Variable fromisoformat : string -> result datetime.

Lemma read_post_date_total (d : list (string * pyval)) :
  exists dt, read_post_date fromisoformat (PDict d) = Ok (Some dt).
Proof.
  unfold read_post_date, py_contains. cbn [bind].
  destruct (assoc_get "{Rrz" d); [|eauto].
  destruct (start_date (PDict d)) as [v|e]; cbn [bind try_except]; [|eauto].
  destruct (truthy v); cbn [try_except]; [|eauto].
  destruct (datetime_fromisoformat fromisoformat v); cbn [bind try_except]; eauto.
Qed.

Lemma read_post_date_missing (d : list (string * pyval)) :
  date_missing (PDict d) = true ->
  read_post_date fromisoformat (PDict d) = Ok (Some FALLBACK_DATE).
Proof.
  unfold date_missing, read_post_date, py_contains. cbn [bind].
  destruct (assoc_get "{Rrz" d); [|reflexivity].
  destruct (start_date (PDict d)) as [v|e]; cbn [bind try_except]; [|reflexivity].
  destruct (truthy v); [discriminate | reflexivity].
Qed.

(** What [from_notion_page] builds when [properties] is a dictionary. *)
Lemma from_notion_page_dict (page props : list (string * pyval)) :
  properties_of page = PDict props ->
  exists dt,
    read_post_date fromisoformat (PDict props) = Ok (Some dt) /\
    from_notion_page fromisoformat (PDict page) =
      Ok (mkMarketingRequest
            (prop page "id")
            (if truthy (first_of (prop props "title"))
             then first_of (prop props "title") else PStr "")
            (first_of (prop props ">zXz"))
            (first_of (prop props "aJ@j"))
            (first_of (prop props "nSLy"))
            (first_of (prop props "[B|e"))
            (Some dt) PNone PNone).
Proof.
  intros Hp. destruct (read_post_date_total props) as (dt & Hdt).
  exists dt. split; [exact Hdt|].
  unfold from_notion_page, py_get_default, py_get. cbn [bind].
  fold (properties_of page). rewrite Hp. cbn [bind].
  rewrite !get_first_dict. cbn [bind]. rewrite Hdt. cbn [bind].
  reflexivity.
Qed.

(** When the [properties] entry is there and is not a dictionary, the first
    [properties.get] raises. *)
Lemma from_notion_page_properties_not_dict (page : list (string * pyval)) :
  match properties_of page with PDict _ => False | _ => True end ->
  from_notion_page fromisoformat (PDict page) = Err AttributeError.
Proof.
  intros H. unfold from_notion_page, py_get_default. cbn [bind].
  fold (properties_of page).
  now rewrite (get_first_not_dict _ "title" H).
Qed.

End MapperFacts.

Section MapperResults.

Variable fromisoformat : string -> result datetime.

(** On a page whose [properties] entry is absent or a dictionary the mapper
    returns a request, and its post date is never [None]. *)
Lemma from_notion_page_post_date (page props : list (string * pyval)) :
  properties_of page = PDict props ->
  exists r dt,
    from_notion_page fromisoformat (PDict page) = Ok r /\ post_date r = Some dt.
Proof.
  intros Hp. destruct (from_notion_page_dict fromisoformat page props Hp)
    as (dt & _ & Hr).
  eexists. exists dt. split; [exact Hr | reflexivity].
Qed.

(** On such a page, a date path that is missing, broken or without a start
    date gives the post date 2024-09-01. *)
Lemma from_notion_page_fallback_date (page props : list (string * pyval)) :
  properties_of page = PDict props ->
  date_missing (PDict props) = true ->
  exists r,
    from_notion_page fromisoformat (PDict page) = Ok r /\
    post_date r = Some (mkDatetime 2024 9 1 0 0 0 0 None).
Proof.
  intros Hp Hm. destruct (from_notion_page_dict fromisoformat page props Hp)
    as (dt & Hdt & Hr).
  rewrite (read_post_date_missing fromisoformat props Hm) in Hdt.
  injection Hdt as <-. eexists. split; [exact Hr | reflexivity].
Qed.

(** On such a page, each of the four scalar fields is [None] when its key is
    absent or its value is not a non-empty list of non-empty lists. *)
Lemma from_notion_page_ill_shaped_scalar (page props : list (string * pyval)) :
  properties_of page = PDict props ->
  exists r,
    from_notion_page fromisoformat (PDict page) = Ok r /\
    (well_shaped (prop props ">zXz") = false -> event r = PNone) /\
    (well_shaped (prop props "aJ@j") = false -> content_type r = PNone) /\
    (well_shaped (prop props "nSLy") = false -> status r = PNone) /\
    (well_shaped (prop props "[B|e") = false -> content_summary r = PNone).
Proof.
  intros Hp. destruct (from_notion_page_dict fromisoformat page props Hp)
    as (dt & _ & Hr).
  eexists. split; [exact Hr|]. cbn.
  repeat split; apply first_of_ill_shaped.
Qed.

(** On such a page the title is never [None], and it is the empty string
    when the title property is absent, ill-shaped or holds a falsy value. *)
Lemma from_notion_page_title (page props : list (string * pyval)) :
  properties_of page = PDict props ->
  exists r,
    from_notion_page fromisoformat (PDict page) = Ok r /\
    title r <> PNone /\
    (truthy (first_of (prop props "title")) = false -> title r = PStr "").
Proof.
  intros Hp. destruct (from_notion_page_dict fromisoformat page props Hp)
    as (dt & _ & Hr).
  eexists. split; [exact Hr|]. cbn.
  destruct (truthy (first_of (prop props "title"))) eqn:Ht.
  - split; [|discriminate]. intros Hn. now rewrite Hn in Ht.
  - split; [discriminate | reflexivity].
Qed.

Lemma ill_shaped_title_falsy (val : pyval) :
  well_shaped val = false -> truthy (first_of val) = false.
Proof. intros H. now rewrite (first_of_ill_shaped val H). Qed.

(** C3.  A page whose [properties] entry is [None] has no date path, yet
    [from_notion_page] does not return a request with the fallback date: the
    first [properties.get] raises [AttributeError]. *)
Theorem from_notion_page_no_date_path_raises :
  let page := [("id", PStr "page-1"); ("properties", PNone)] in
  date_missing (properties_of page) = true /\
  from_notion_page fromisoformat (PDict page) = Err AttributeError.
Proof. split; reflexivity. Qed.

(** C4.  A page whose [properties] entry is [None] has none of the four
    scalar keys, and [from_notion_page] raises [AttributeError] on it. *)
Theorem from_notion_page_scalar_key_absent_raises :
  let page := [("id", PStr "page-2"); ("properties", PNone)] in
  Forall (fun k => exists e, py_getitem (properties_of page) k = Err e)
         [">zXz"; "aJ@j"; "nSLy"; "[B|e"] /\
  from_notion_page fromisoformat (PDict page) = Err AttributeError.
Proof.
  split; [|reflexivity].
  repeat constructor; eexists; reflexivity.
Qed.

(** C9.  A page whose status property holds a string that is no key of
    [STATUS_ORDER] is mapped to a request with that very status. *)
Theorem from_notion_page_keeps_unranked_status :
  let page := [("id", PStr "page-3");
               ("properties", PDict [("nSLy", PList [PList [PStr "Archived"]])])] in
  exists r,
    from_notion_page fromisoformat (PDict page) = Ok r /\
    status r = PStr "Archived" /\
    status r <> PNone /\
    in_STATUS_ORDER (status r) = false /\
    post_date r = Some FALLBACK_DATE.
Proof.
  eexists. split; [reflexivity|]. cbn.
  repeat split. discriminate.
Qed.

(** C10.  A page whose [properties] entry is [None] has no title
    property, and [from_notion_page] raises [AttributeError] on it instead of
    returning a request with an empty title. *)
Theorem from_notion_page_title_missing_raises :
  let page := [("id", PStr "page-4"); ("properties", PNone)] in
  (exists e, py_getitem (properties_of page) "title" = Err e) /\
  from_notion_page fromisoformat (PDict page) = Err AttributeError.
Proof. split; [eexists|]; reflexivity. Qed.

End MapperResults.

(** ** Sorting requests that can be compared *)

Lemma lt_comparable (o : option Z) (a b : MarketingRequest) :
  comparable o a -> comparable o b -> __lt__ a b = Ok (lt_pure a b).
Proof.
  intros [Ha Hoa] [Hb Hob].
  destruct (sort_key_hashable a Ha) as (ka & Hka & Hsa).
  destruct (sort_key_hashable b Hb) as (kb & Hkb & Hsb).
  unfold __lt__, lt_pure, rank_of. rewrite Hsa, Hsb, Hka, Hkb. cbn [bind].
  unfold key_lt. cbn [fst snd].
  destruct (rank_eqb ka kb); [|reflexivity].
  unfold dt_eq, dt_lt, dt_cmp. rewrite Hoa, Hob, option_Z_eqb_refl.
  cbn [bind].
  generalize (cmp_fields (fields (date_key a)) (fields (date_key b))) as c.
  intros c. destruct (Z.eqb_spec c 0) as [->|Hc]; reflexivity.
Qed.

Lemma lt_pure_true_le (a b : MarketingRequest) :
  lt_pure a b = true -> request_le a b.
Proof.
  unfold lt_pure, request_le.
  destruct (rank_eqb (rank_of a) (rank_of b)) eqn:E; intros H.
  - right. split; [now apply rank_eqb_eq|]. apply Z.ltb_lt in H. lia.
  - now left.
Qed.

Lemma lt_pure_false_le (a b : MarketingRequest) :
  lt_pure a b = false -> request_le b a.
Proof.
  unfold lt_pure, request_le.
  destruct (rank_eqb (rank_of a) (rank_of b)) eqn:E; intros H.
  - right. apply rank_eqb_eq in E. split; [now symmetry|].
    rewrite cmp_fields_antisym. apply Z.ltb_ge in H. lia.
  - destruct (rank_total (rank_of a) (rank_of b)) as [H1|[H1|H1]].
    + congruence.
    + apply rank_eqb_eq in H1. congruence.
    + now left.
Qed.

(** On requests that can be compared, [request_le a b] says that the
    program's own comparison answers [b < a] with [False]. *)
Lemma request_le_iff_not_lt (o : option Z) (a b : MarketingRequest) :
  comparable o a -> comparable o b ->
  (request_le a b <-> __lt__ b a = Ok false).
Proof.
  intros Ha Hb. rewrite (lt_comparable o b a Hb Ha). split.
  - intros Hle. f_equal. unfold lt_pure. destruct Hle as [Hlt|[Heq Hd]].
    + rewrite rank_eqb_sym, (rank_ltb_neq _ _ Hlt). now apply rank_ltb_asym.
    + rewrite Heq, rank_eqb_refl. rewrite cmp_fields_antisym.
      apply Z.ltb_ge. lia.
  - intros [= H]. now apply lt_pure_false_le.
Qed.

Lemma request_le_trans (a b c : MarketingRequest) :
  request_le a b -> request_le b c -> request_le a c.
Proof.
  unfold request_le. intros [H1|[E1 D1]] [H2|[E2 D2]].
  - left. eauto using rank_ltb_trans.
  - left. now rewrite <- E2.
  - left. now rewrite E1.
  - right. split; [congruence|]. eauto using cmp_fields_trans.
Qed.

Lemma sort_insert_sorted (o : option Z) (pivot : MarketingRequest)
    (sorted : list MarketingRequest) :
  comparable o pivot ->
  Forall (comparable o) sorted ->
  StronglySorted request_le sorted ->
  exists l, sort_insert pivot sorted = Ok l /\
            Permutation (pivot :: sorted) l /\
            StronglySorted request_le l.
Proof.
  intros Hp. induction sorted as [|y ys IH]; intros Hc Hs.
  - exists [pivot]. repeat split; auto. repeat constructor.
  - inversion Hc as [|? ? Hy Hys]; subst.
    inversion Hs as [|? ? Hs' Hall]; subst.
    cbn [sort_insert]. rewrite (lt_comparable o pivot y Hp Hy). cbn [bind].
    destruct (lt_pure pivot y) eqn:E.
    + exists (pivot :: y :: ys). repeat split; auto.
      constructor; [exact Hs|].
      apply lt_pure_true_le in E. constructor; [exact E|].
      eapply Forall_impl; [|exact Hall].
      intros z Hz. eapply request_le_trans; eauto.
    + destruct (IH Hys Hs') as (rest & Hr & Hperm & Hsr).
      rewrite Hr. cbn [bind]. exists (y :: rest). repeat split.
      * rewrite perm_swap. now constructor.
      * constructor; [exact Hsr|].
        apply lt_pure_false_le in E.
        eapply Permutation_Forall; [exact Hperm|].
        constructor; assumption.
Qed.

Lemma sort_from_sorted (o : option Z) (rest sorted : list MarketingRequest) :
  Forall (comparable o) sorted ->
  Forall (comparable o) rest ->
  StronglySorted request_le sorted ->
  exists l, sort_from sorted rest = Ok l /\
            Permutation (sorted ++ rest) l /\
            StronglySorted request_le l.
Proof.
  revert sorted. induction rest as [|x xs IH]; intros sorted Hcs Hcr Hs.
  - exists sorted. rewrite app_nil_r. repeat split; auto.
  - inversion Hcr as [|? ? Hx Hxs]; subst.
    destruct (sort_insert_sorted o x sorted Hx Hcs Hs) as (s & Hi & Hperm & Hss).
    cbn [sort_from]. rewrite Hi. cbn [bind].
    destruct (IH s) as (l & Hl & Hpl & Hsl); auto.
    + eapply Permutation_Forall; [exact Hperm|]. now constructor.
    + exists l. repeat split; auto.
      rewrite <- Hpl. rewrite <- Hperm.
      now rewrite <- Permutation_middle.
Qed.

Lemma list_sort_sorted (o : option Z) (l : list MarketingRequest) :
  Forall (comparable o) l ->
  exists s, list_sort l = Ok s /\ Permutation l s /\ StronglySorted request_le s.
Proof.
  intros Hc. unfold list_sort.
  destruct (sort_from_sorted o l [] (Forall_nil _) Hc (SSorted_nil _))
    as (s & Hs & Hp & Hss).
  exists s. auto.
Qed.

Lemma StronglySorted_nth_error (l : list MarketingRequest) :
  StronglySorted request_le l ->
  forall i j a b, (i < j)%nat ->
    nth_error l i = Some a -> nth_error l j = Some b -> request_le a b.
Proof.
  induction 1 as [|x xs Hs IH Hall]; intros i j a b Hij Ha Hb.
  - destruct i; discriminate.
  - destruct j as [|j]; [lia|]. cbn in Hb.
    destruct i as [|i]; cbn in Ha.
    + injection Ha as <-. rewrite Forall_forall in Hall.
      apply Hall. eapply nth_error_In; eauto.
    + apply (IH i j); auto. lia.
Qed.

Lemma request_le_ranked (a b : MarketingRequest) :
  hashable (status a) = true ->
  request_le a b ->
  in_STATUS_ORDER (status b) = true -> in_STATUS_ORDER (status a) = true.
Proof.
  intros Ha Hle Hb.
  destruct (in_STATUS_ORDER (status a)) eqn:Hia; [reflexivity|].
  destruct (STATUS_ORDER_get_ranked _ Hb) as (n & Hn).
  pose proof (STATUS_ORDER_get_unranked _ Ha Hia) as Hu.
  unfold request_le, rank_of in Hle. rewrite Hn, Hu in Hle.
  destruct Hle as [H|[H _]]; discriminate.
Qed.

(** ** The collection built from a record map *)

Lemma for_each_In {A B : Type} (f : A -> result B) (l : list A) (ys : list B) :
  for_each f l = Ok ys ->
  forall y, In y ys -> exists x, In x l /\ f x = Ok y.
Proof.
  revert ys. induction l as [|x xs IH]; intros ys H y Hy; cbn in H.
  - injection H as <-. contradiction.
  - destruct (f x) as [y0|] eqn:Hx; cbn in H; [|discriminate].
    destruct (for_each f xs) as [ys0|] eqn:Hxs; cbn in H; [|discriminate].
    injection H as <-. destruct Hy as [<-|Hy].
    + exists x. split; [now left | exact Hx].
    + destruct (IH ys0 eq_refl y Hy) as (x' & Hin & Hfx).
      exists x'. split; [now right | exact Hfx].
Qed.

Section CollectionFacts.

Variable fromisoformat : string -> result datetime.

Lemma from_notion_page_ok_date (v : pyval) (r : MarketingRequest) :
  from_notion_page fromisoformat v = Ok r ->
  exists page,
    v = PDict page /\
    (exists dt, post_date r = Some dt) /\
    (date_missing (properties_of page) = true -> post_date r = Some FALLBACK_DATE).
Proof.
  intros H. destruct v as [| | | | |page]; try discriminate.
  exists page. split; [reflexivity|].
  destruct (properties_of page) as [| | | | |props] eqn:Hp;
    try (rewrite from_notion_page_properties_not_dict in H;
         [discriminate | now rewrite Hp]).
  destruct (from_notion_page_dict fromisoformat page props Hp) as (dt & Hdt & Hr).
  rewrite Hr in H. injection H as <-. cbn. split; [eauto|].
  intros Hm. rewrite (read_post_date_missing fromisoformat props Hm) in Hdt.
  congruence.
Qed.

Lemma block_request_ok_date (block_data : pyval) (r : MarketingRequest) :
  block_request fromisoformat block_data = Ok r ->
  (exists dt, post_date r = Some dt) /\
  (block_date_missing block_data = true -> post_date r = Some FALLBACK_DATE).
Proof.
  unfold block_request, block_date_missing.
  destruct (py_get_default block_data "value" (PDict [])) as [v|]; cbn [bind];
    [|discriminate].
  intros H. destruct (from_notion_page_ok_date v r H) as (page & -> & Hd & Hm).
  auto.
Qed.

(** When the requests mapped from the blocks of a record map can be compared
    with one another, [from_record_map] does return a collection: it holds
    exactly those requests, sorted by status rank ascending and then by key
    date ascending. *)
Lemma from_record_map_returns_when_comparable
    (record_map : pyval) (rs : list MarketingRequest) (o : option Z) :
  mapped_requests fromisoformat record_map = Ok rs ->
  Forall (comparable o) rs ->
  exists c values,
    from_record_map fromisoformat record_map = Ok c /\
    block_values record_map = Ok values /\
    Permutation rs (requests c) /\
    StronglySorted request_le (requests c) /\
    (forall i j a b, (i < j)%nat ->
       nth_error (requests c) i = Some a ->
       nth_error (requests c) j = Some b ->
       in_STATUS_ORDER (status b) = true -> in_STATUS_ORDER (status a) = true) /\
    (forall r, In r (requests c) ->
       exists block_data dt,
         In block_data values /\
         block_request fromisoformat block_data = Ok r /\
         post_date r = Some dt /\
         (block_date_missing block_data = true ->
          dt = mkDatetime 2024 9 1 0 0 0 0 None)).
Proof.
  intros Hm Hc.
  destruct (list_sort_sorted o rs Hc) as (s & Hs & Hperm & Hss).
  unfold from_record_map. rewrite Hm. cbn [bind]. rewrite Hs. cbn [bind].
  unfold mapped_requests in Hm.
  destruct (block_values record_map) as [values|] eqn:Hv; cbn [bind] in Hm;
    [|discriminate].
  exists (mkCollection s), values. cbn [requests].
  repeat split; auto.
  - intros i j a b Hij Ha Hb.
    apply request_le_ranked.
    + assert (Hin : In a rs).
      { eapply Permutation_in; [symmetry; exact Hperm|].
        eapply nth_error_In; eauto. }
      rewrite Forall_forall in Hc. now apply Hc.
    + eapply StronglySorted_nth_error; eauto.
  - intros r Hr.
    assert (Hin : In r rs) by (eapply Permutation_in; [symmetry|]; eauto).
    destruct (for_each_In _ _ _ Hm r Hin) as (b & Hb & Hbr).
    destruct (block_request_ok_date b r Hbr) as ((dt & Hdt) & Hmiss).
    exists b, dt. repeat split; auto.
    intros Hbm. specialize (Hmiss Hbm). unfold FALLBACK_DATE in Hmiss. congruence.
Qed.

End CollectionFacts.

(** ** A record map with a dated and an undated block *)

Lemma two_block_record_map_sorted :
  from_record_map iso_date two_block_record_map
  = Ok (mkCollection [request_undated; request_dated]).
Proof. reflexivity. Qed.

(** A batch with the statuses Posted, Not Started, Confirmed comes out in
    the order Not Started, Confirmed, Posted. *)
Lemma three_block_record_map_order :
  exists c,
    from_record_map iso_date three_block_record_map = Ok c /\
    map status (requests c)
    = [PStr "Not Started"; PStr "Confirmed"; PStr "Posted"].
Proof. eexists. split; reflexivity. Qed.

(** A record without a start date is not placed last: both blocks have
    status "Drafted", the second has no start date, and the request built
    from it, dated 2024-09-01, is placed first, before the request dated
    2025-02-03. *)
Lemma missing_date_does_not_sort_last :
  ~ missing_date_sorts_last iso_date two_block_record_map.
Proof.
  intros H.
  assert (Hlt : (1 < 0)%nat).
  { apply (H (mkCollection [request_undated; request_dated])
             [block_dated; block_undated] eq_refl eq_refl
             0%nat 1%nat block_undated block_dated
             request_undated request_dated);
      try reflexivity; simpl; auto. }
  lia.
Qed.

(** *** What the sort of a returned collection has established *)
















(** ** Filtering the collection *)

Lemma py_eq_str (v : pyval) (s : string) : py_eq v (PStr s) = true <-> v = PStr s.
Proof.
  destruct v; simpl; split; intros H; try discriminate.
  - apply String.eqb_eq in H. now subst.
  - injection H as ->. apply String.eqb_refl.
Qed.

(** C5.  No collection has an attribute [filter_by_criterion]: the lookup
    that both callers perform raises [AttributeError]. *)
Theorem filter_by_criterion_is_no_attribute (c : MarketingRequestCollection) :
  collection_getattr c "filter_by_criterion" = Err AttributeError /\
  weekly_schedule_lookup (Some c) = Err AttributeError /\
  collection_getattr c "fetch_requests_by_status"
  = Ok (ClassAttribute "fetch_requests_by_status").
Proof. repeat split. Qed.

(** C6.  [fetch_requests_by_status] keeps, in their order and with their
    multiplicity, exactly the requests whose status is the given string,
    character for character. *)
Theorem fetch_requests_by_status_exact (c : MarketingRequestCollection) (s : string) :
  fetch_requests_by_status c s
  = filter (fun r => match status r with
                     | PStr t => String.eqb t s
                     | _ => false
                     end) (requests c)
  /\ (forall r, In r (fetch_requests_by_status c s)
                <-> In r (requests c) /\ status r = PStr s).
Proof.
  unfold fetch_requests_by_status, _fetch. split.
  - apply filter_ext. intros r. now destruct (status r).
  - intros r. rewrite filter_In. now rewrite py_eq_str.
Qed.

(** A status that differs in case only is not matched. *)
Lemma fetch_requests_by_status_case_sensitive :
  fetch_requests_by_status
    (mkCollection [request_of (PStr "posted") None;
                   request_of (PStr "Posted") None;
                   request_of PNone None]) "Posted"
  = [request_of (PStr "Posted") None].
Proof. reflexivity. Qed.

(** ** The webhook *)

Lemma append_assoc (a b c : string) :
  ((a ++ b) ++ c = a ++ (b ++ c))%string.
Proof. induction a as [|ch a IH]; simpl; [reflexivity | now rewrite IH]. Qed.

Lemma append_nil_r (a : string) : (a ++ "" = a)%string.
Proof. induction a as [|ch a IH]; simpl; [reflexivity | now rewrite IH]. Qed.

Lemma slack_error_message_contains (r : response) :
  contains (slack_error_message r) (py_str_int (status_code r)) /\
  contains (slack_error_message r) (text r).
Proof.
  unfold contains, slack_error_message. split.
  - exists "Request to Slack returned an error ",
      (", the response is:" ++ newline ++ text r)%string.
    reflexivity.
  - exists ("Request to Slack returned an error " ++ py_str_int (status_code r)
            ++ ", the response is:" ++ newline)%string, "".
    rewrite append_nil_r. rewrite !append_assoc. reflexivity.
Qed.

(** C7.  Once the transport has returned a response, the function returns
    that response when its status code is 200 and raises otherwise; what it
    raises is an [Exception] whose message contains the status code in
    decimal and the body of the response.  So it raises exactly when the
    status code is not 200. *)
Theorem send_slack_webhook_message_raises_iff_not_200
    (requests_post : string -> pyval -> result response)
    (webhook_url message username icon_emoji : string) (markdown : bool)
    (r : response) :
  requests_post webhook_url (slack_payload message username icon_emoji markdown)
  = Ok r ->
  let sent := send_slack_webhook_message requests_post webhook_url message
                username icon_emoji markdown in
  (status_code r = 200 -> sent = Ok r) /\
  (status_code r <> 200 ->
     exists msg, sent = Err (Exception msg) /\
                 contains msg (py_str_int (status_code r)) /\
                 contains msg (text r)) /\
  ((exists e, sent = Err e) <-> status_code r <> 200).
Proof.
  intros Hpost sent. subst sent. unfold send_slack_webhook_message.
  rewrite Hpost. cbn [bind].
  destruct (Z.eqb_spec (status_code r) 200) as [E|N]; cbn [negb].
  - repeat split; try congruence.
    + intros [e He]. discriminate.
  - repeat split; try congruence.
    + intros _. exists (slack_error_message r). split; [reflexivity|].
      apply slack_error_message_contains.
    + intros _. eauto.
Qed.

Lemma send_slack_webhook_message_raises_iff_not_200_witness :
  exists msg,
    send_slack_webhook_message (fun _ _ => Ok (mkResponse 500 "server error"))
      "https://hooks.example/T000" "hello" "Notifier" ":robot_face:" true
    = Err (Exception msg) /\
    contains msg "500" /\
    contains msg "server error".
Proof.
  refine (proj1 (proj2 (send_slack_webhook_message_raises_iff_not_200
              (fun _ _ => Ok (mkResponse 500 "server error"))
              "https://hooks.example/T000" "hello" "Notifier" ":robot_face:" true
              (mkResponse 500 "server error") eq_refl)) _).
  cbn. discriminate.
Defined.

(** ** The polling loop *)

Section PollerFacts.

Variable fromisoformat : string -> result datetime.

Lemma poll_cycle_continues (http : result pyval)
    (notion_data : option MarketingRequestCollection) :
  exists d, poll_cycle fromisoformat http notion_data = (Ok tt, d).
Proof.
  unfold poll_cycle.
  destruct (query_marketing_requests fromisoformat http);
    cbn [bind try_except]; eauto.
Qed.

Lemma fetch_notion_data_running (turns : nat) (https : nat -> result pyval)
    (notion_data : option MarketingRequestCollection) :
  exists d, fetch_notion_data fromisoformat turns https notion_data = Running d.
Proof.
  revert notion_data. induction turns as [|n IH]; intros notion_data.
  - cbn. eauto.
  - cbn [fetch_notion_data].
    destruct (poll_cycle_continues (https n) notion_data) as (d & ->).
    apply IH.
Qed.

(** C8.  A turn of the loop whose query raises ends normally and leaves the
    global as it was, so a handler reads from it what it read before; the
    loop goes on with the turns that remain, and after any number of turns,
    whatever the queries did, it is still running. *)
Theorem failed_poll_keeps_snapshot (http : result pyval) (e : exn)
    (previous : option MarketingRequestCollection) :
  query_marketing_requests fromisoformat http = Err e ->
  poll_cycle fromisoformat http previous = (Ok tt, previous) /\
  backlog_requests (snd (poll_cycle fromisoformat http previous))
  = backlog_requests previous /\
  (forall n https, https n = http ->
     fetch_notion_data fromisoformat (S n) https previous
     = fetch_notion_data fromisoformat n https previous) /\
  (forall turns https notion_data,
     exists d, fetch_notion_data fromisoformat turns https notion_data = Running d).
Proof.
  intros Hq.
  assert (Hc : poll_cycle fromisoformat http previous = (Ok tt, previous)).
  { unfold poll_cycle. rewrite Hq. reflexivity. }
  repeat split.
  - exact Hc.
  - now rewrite Hc.
  - intros n https Hn. cbn [fetch_notion_data]. rewrite Hn, Hc. reflexivity.
  - apply fetch_notion_data_running.
Qed.

(** When every query raises, the global never changes. *)
Lemma always_failing_polls_keep_snapshot (turns : nat) (https : nat -> result pyval)
    (previous : option MarketingRequestCollection) :
  (forall n, exists e, query_marketing_requests fromisoformat (https n) = Err e) ->
  fetch_notion_data fromisoformat turns https previous = Running previous.
Proof.
  intros Hfail. induction turns as [|n IH]; [reflexivity|].
  cbn [fetch_notion_data]. destruct (Hfail n) as (e & He).
  unfold poll_cycle. rewrite He. cbn [bind try_except]. exact IH.
Qed.

End PollerFacts.

Lemma failed_poll_keeps_snapshot_witness :
  let previous := Some (mkCollection [request_undated; request_dated]) in
  let http := Err (Exception "503 Server Error") in
  poll_cycle iso_date http previous = (Ok tt, previous) /\
  backlog_requests (snd (poll_cycle iso_date http previous))
  = backlog_requests previous.
Proof.
  destruct (failed_poll_keeps_snapshot iso_date
              (Err (Exception "503 Server Error")) (Exception "503 Server Error")
              (Some (mkCollection [request_undated; request_dated])) eq_refl)
    as (H1 & H2 & _).
  split; [exact H1 | exact H2].
Defined.

(** * Further properties of the code *)

(** ** Equality and order of requests *)

Lemma cmp_fields_refl (a : list Z) : cmp_fields a a = 0.
Proof. induction a as [|x xs IH]; simpl; [reflexivity|]. now rewrite Z.eqb_refl. Qed.

Lemma dt_eq_refl (a : datetime) : dt_eq a a = true.
Proof.
  unfold dt_eq, dt_cmp. now rewrite option_Z_eqb_refl, cmp_fields_refl.
Qed.

Lemma eq_comparable (o : option Z) (a b : MarketingRequest) :
  comparable o a -> comparable o b -> __eq__ a b = Ok (same_key a b).
Proof.
  intros [Ha Hoa] [Hb Hob].
  destruct (sort_key_hashable a Ha) as (ka & Hka & Hsa).
  destruct (sort_key_hashable b Hb) as (kb & Hkb & Hsb).
  unfold __eq__, same_key, rank_of. rewrite Hsa, Hsb, Hka, Hkb. cbn [bind].
  unfold key_eq, dt_eq, dt_cmp. cbn [fst snd].
  now rewrite Hoa, Hob, option_Z_eqb_refl.
Qed.

(** X1.  Equality looks at the sort key only.  Two requests whose statuses have
    the same rank and whose key dates are the same compare equal, whatever
    their ids, titles and other fields, and neither is less than the other. *)
Theorem eq_looks_at_sort_key_only (r1 r2 : MarketingRequest) :
  hashable (status r1) = true ->
  STATUS_ORDER_get (status r1) = STATUS_ORDER_get (status r2) ->
  date_key r1 = date_key r2 ->
  __eq__ r1 r2 = Ok true /\ __lt__ r1 r2 = Ok false /\ __lt__ r2 r1 = Ok false.
Proof.
  intros H1 Hrank Hdate.
  destruct (sort_key_hashable r1 H1) as (k & Hk & Hs1).
  assert (Hs2 : _sort_key r2 = Ok (k, date_key r1)).
  { unfold _sort_key. rewrite <- Hrank, Hk, Hdate. reflexivity. }
  unfold __eq__, __lt__. rewrite Hs1, Hs2. cbn [bind].
  unfold key_eq, key_lt. cbn [fst snd].
  now rewrite rank_eqb_refl, dt_eq_refl.
Qed.

Lemma eq_looks_at_sort_key_only_witness :
  let a := mkMarketingRequest (PStr "a") (PStr "Poster") PNone PNone
             (PStr "Archived") PNone None PNone PNone in
  let b := mkMarketingRequest (PStr "b") (PStr "Reel") (PStr "Gala") PNone
             PNone PNone (Some FALLBACK_DATE) PNone PNone in
  __eq__ a b = Ok true /\ __lt__ a b = Ok false /\ __lt__ b a = Ok false.
Proof.
  intros a b.
  exact (eq_looks_at_sort_key_only a b eq_refl eq_refl eq_refl).
Defined.

Lemma comparison_cases (o : option Z) (a b : MarketingRequest) :
  comparable o a -> comparable o b ->
  exists lt eq gt,
    __lt__ a b = Ok lt /\ __eq__ a b = Ok eq /\ __lt__ b a = Ok gt /\
    ((lt = true /\ eq = false /\ gt = false) \/
     (lt = false /\ eq = true /\ gt = false) \/
     (lt = false /\ eq = false /\ gt = true)).
Proof.
  intros Ha Hb.
  exists (lt_pure a b), (same_key a b), (lt_pure b a).
  rewrite (lt_comparable o a b Ha Hb), (lt_comparable o b a Hb Ha),
    (eq_comparable o a b Ha Hb).
  repeat split.
  unfold lt_pure, same_key.
  rewrite (rank_eqb_sym (rank_of b)).
  rewrite (cmp_fields_antisym (fields (date_key a)) (fields (date_key b))).
  generalize (cmp_fields (fields (date_key a)) (fields (date_key b))) as c.
  intros c.
  destruct (rank_eqb (rank_of a) (rank_of b)) eqn:E; cbn [andb].
  - destruct (Z.ltb_spec c 0), (Z.eqb_spec c 0), (Z.ltb_spec (- c) 0);
      try lia; auto.
  - destruct (rank_total (rank_of a) (rank_of b)) as [H|[H|H]].
    + rewrite H, (rank_ltb_asym _ _ H). auto.
    + apply rank_eqb_eq in H. congruence.
    + rewrite H, (rank_ltb_asym _ _ H). auto.
Qed.

(** X2.  Among requests that can be compared, exactly one of [a < b], [a == b]
    and [b < a] holds. *)
Theorem lt_eq_trichotomy (o : option Z) (a b : MarketingRequest) :
  comparable o a -> comparable o b ->
  exists lt eq gt,
    __lt__ a b = Ok lt /\ __eq__ a b = Ok eq /\ __lt__ b a = Ok gt /\
    ((lt = true /\ eq = false /\ gt = false) \/
     (lt = false /\ eq = true /\ gt = false) \/
     (lt = false /\ eq = false /\ gt = true)).
Proof. exact (comparison_cases o a b). Qed.

Lemma lt_eq_trichotomy_witness :
  exists lt eq gt,
    __lt__ request_undated request_dated = Ok lt /\
    __eq__ request_undated request_dated = Ok eq /\
    __lt__ request_dated request_undated = Ok gt /\
    ((lt = true /\ eq = false /\ gt = false) \/
     (lt = false /\ eq = true /\ gt = false) \/
     (lt = false /\ eq = false /\ gt = true)).
Proof.
  apply (lt_eq_trichotomy None request_undated request_dated);
    split; reflexivity.
Defined.

(** X3.  Among requests that can be compared, [<] is irreflexive and transitive. *)
Theorem lt_strict_order (o : option Z) (a b c : MarketingRequest) :
  comparable o a -> comparable o b -> comparable o c ->
  __lt__ a a = Ok false /\
  (__lt__ a b = Ok true -> __lt__ b c = Ok true -> __lt__ a c = Ok true).
Proof.
  intros Ha Hb Hc. split.
  - rewrite (lt_comparable o a a Ha Ha). f_equal. unfold lt_pure.
    now rewrite rank_eqb_refl, cmp_fields_refl.
  - rewrite (lt_comparable o a b Ha Hb), (lt_comparable o b c Hb Hc),
      (lt_comparable o a c Ha Hc).
    intros [= Hab] [= Hbc]. f_equal.
    destruct (lt_pure a c) eqn:Hac; [reflexivity|].
    apply lt_pure_false_le in Hac. apply lt_pure_true_le in Hab.
    pose proof (request_le_trans _ _ _ Hac Hab) as Hcb.
    apply (request_le_iff_not_lt o c b Hc Hb) in Hcb.
    rewrite (lt_comparable o b c Hb Hc) in Hcb. congruence.
Qed.

Lemma lt_strict_order_witness :
  __lt__ request_undated request_undated = Ok false /\
  (__lt__ request_undated request_dated = Ok true ->
   __lt__ request_dated (request_of PNone None) = Ok true ->
   __lt__ request_undated (request_of PNone None) = Ok true).
Proof.
  apply (lt_strict_order None request_undated request_dated (request_of PNone None));
    split; reflexivity.
Defined.

(** X4.  The comparisons that [@total_ordering] derives agree with [<] read the
    other way round: [a > b] is [b < a], [a <= b] is the negation of [b < a],
    and [a >= b] is the negation of [a < b]. *)
Theorem derived_comparisons_agree (o : option Z) (a b : MarketingRequest) :
  comparable o a -> comparable o b ->
  exists lt gt,
    __lt__ a b = Ok lt /\ __lt__ b a = Ok gt /\
    __gt__ a b = Ok gt /\
    __le__ a b = Ok (negb gt) /\
    __ge__ a b = Ok (negb lt).
Proof.
  intros Ha Hb.
  destruct (comparison_cases o a b Ha Hb)
    as (lt & eq & gt & Hlt & Heq & Hgt & Hcases).
  exists lt, gt. unfold __gt__, __le__, __ge__, __ne__.
  rewrite Hlt, Hgt. cbn [bind]. rewrite Heq. cbn [bind].
  destruct Hcases as [(-> & -> & ->)|[(-> & -> & ->)|(-> & -> & ->)]];
    repeat split.
Qed.

Lemma derived_comparisons_agree_witness :
  exists lt gt,
    __lt__ request_undated request_dated = Ok lt /\
    __lt__ request_dated request_undated = Ok gt /\
    __gt__ request_undated request_dated = Ok gt /\
    __le__ request_undated request_dated = Ok (negb gt) /\
    __ge__ request_undated request_dated = Ok (negb lt).
Proof.
  apply (derived_comparisons_agree None request_undated request_dated);
    split; reflexivity.
Defined.

(** ** Comparisons that raise *)

Lemma STATUS_ORDER_get_unhashable (v : pyval) :
  hashable v = false -> STATUS_ORDER_get v = Err TypeError.
Proof. unfold STATUS_ORDER_get. now intros ->. Qed.

Lemma STATUS_ORDER_get_raises_TypeError_only (v : pyval) (e : exn) :
  STATUS_ORDER_get v = Err e -> e = TypeError.
Proof.
  destruct (hashable v) eqn:H.
  - rewrite (STATUS_ORDER_get_hashable v H). discriminate.
  - rewrite (STATUS_ORDER_get_unhashable v H). now intros [= <-].
Qed.

Lemma lt_raises_TypeError_only (a b : MarketingRequest) (e : exn) :
  __lt__ a b = Err e -> e = TypeError.
Proof.
  unfold __lt__, _sort_key.
  destruct (STATUS_ORDER_get (status a)) as [ka|ea] eqn:Ha; cbn [bind];
    [|intros [= <-]; eapply STATUS_ORDER_get_raises_TypeError_only; eauto].
  destruct (STATUS_ORDER_get (status b)) as [kb|eb] eqn:Hb; cbn [bind];
    [|intros [= <-]; eapply STATUS_ORDER_get_raises_TypeError_only; eauto].
  unfold key_lt. cbn [fst snd].
  destruct (rank_eqb ka kb); [|discriminate].
  destruct (dt_eq (date_key a) (date_key b)); [discriminate|].
  unfold dt_lt, dt_cmp.
  destruct (option_Z_eqb (utcoffset (date_key a)) (utcoffset (date_key b)));
    cbn [bind]; [discriminate|].
  destruct (utcoffset (date_key a)), (utcoffset (date_key b)); cbn [bind];
    try discriminate; now intros [= <-].
Qed.

Lemma lt_unhashable_left (a b : MarketingRequest) :
  hashable (status a) = false -> __lt__ a b = Err TypeError.
Proof.
  intros H. unfold __lt__, _sort_key.
  now rewrite (STATUS_ORDER_get_unhashable _ H).
Qed.

Lemma lt_unhashable_right (a b : MarketingRequest) :
  hashable (status b) = false -> __lt__ a b = Err TypeError.
Proof.
  intros H. unfold __lt__, _sort_key.
  rewrite (STATUS_ORDER_get_unhashable _ H).
  destruct (STATUS_ORDER_get (status a)) as [k|e] eqn:Ha; cbn [bind];
    [reflexivity|].
  f_equal. eapply STATUS_ORDER_get_raises_TypeError_only; eauto.
Qed.

Lemma sort_insert_raises_TypeError_only (p : MarketingRequest)
    (l : list MarketingRequest) (e : exn) :
  sort_insert p l = Err e -> e = TypeError.
Proof.
  induction l as [|y ys IH]; cbn [sort_insert]; [discriminate|].
  destruct (__lt__ p y) as [[|]|e'] eqn:Hlt; cbn [bind].
  - discriminate.
  - destruct (sort_insert p ys) as [rest|e'']; cbn [bind]; [discriminate|].
    intros [= <-]. now apply IH.
  - intros [= <-]. eapply lt_raises_TypeError_only; eauto.
Qed.

Lemma sort_from_raises_TypeError_only (rest sorted : list MarketingRequest)
    (e : exn) :
  sort_from sorted rest = Err e -> e = TypeError.
Proof.
  revert sorted. induction rest as [|x xs IH]; intros sorted; cbn [sort_from];
    [discriminate|].
  destruct (sort_insert x sorted) as [s|e'] eqn:Hi; cbn [bind].
  - apply IH.
  - intros [= <-]. eapply sort_insert_raises_TypeError_only; eauto.
Qed.

Lemma sort_insert_nonempty (p : MarketingRequest) (l s : list MarketingRequest) :
  sort_insert p l = Ok s -> s <> [].
Proof.
  destruct l as [|y ys]; cbn [sort_insert].
  - intros [= <-]. discriminate.
  - destruct (__lt__ p y) as [[|]|]; cbn [bind]; try discriminate.
    + intros [= <-]. discriminate.
    + destruct (sort_insert p ys); cbn [bind]; [|discriminate].
      intros [= <-]. discriminate.
Qed.

Lemma sort_insert_In (p x : MarketingRequest) (l s : list MarketingRequest) :
  sort_insert p l = Ok s -> In x l -> In x s.
Proof.
  revert s. induction l as [|y ys IH]; intros s; cbn [sort_insert].
  - intros _ [].
  - destruct (__lt__ p y) as [[|]|]; cbn [bind]; try discriminate.
    + intros [= <-] H. now right.
    + destruct (sort_insert p ys) as [rest|]; cbn [bind]; [|discriminate].
      intros [= <-] [->|H]; [now left | right; now apply IH].
Qed.

Lemma sort_from_unhashable_later (a : MarketingRequest)
    (rest sorted : list MarketingRequest) :
  hashable (status a) = false -> sorted <> [] -> In a rest ->
  sort_from sorted rest = Err TypeError.
Proof.
  intros Ha. revert sorted. induction rest as [|x xs IH]; intros sorted Hne;
    [intros []|].
  intros Hin. cbn [sort_from].
  destruct (sort_insert x sorted) as [s|e] eqn:Hi; cbn [bind].
  - destruct Hin as [->|Hin].
    + destruct sorted as [|y ys]; [contradiction|].
      cbn [sort_insert] in Hi. rewrite (lt_unhashable_left a y Ha) in Hi.
      discriminate.
    + apply IH; [|exact Hin]. eapply sort_insert_nonempty; eauto.
  - f_equal. eapply sort_insert_raises_TypeError_only; eauto.
Qed.

(** X5.  A request whose status cannot be hashed, such as the list that
    [from_notion_page] copies from a status cell holding a nested list, makes
    the sort of any list of two or more requests raise [TypeError]. *)
Theorem list_sort_unhashable_status_raises (a : MarketingRequest)
    (l : list MarketingRequest) :
  hashable (status a) = false -> In a l -> (2 <= List.length l)%nat ->
  list_sort l = Err TypeError.
Proof.
  intros Ha Hin Hlen. unfold list_sort.
  destruct l as [|x1 [|x2 rest]]; cbn in Hlen; try lia.
  cbn [sort_from sort_insert bind].
  destruct Hin as [->|Hin].
  - cbn [sort_from sort_insert]. rewrite (lt_unhashable_right x2 a Ha).
    reflexivity.
  - change (sort_from [x1] (x2 :: rest) = Err TypeError).
    apply (sort_from_unhashable_later a); [exact Ha | discriminate | exact Hin].
Qed.

Lemma list_sort_unhashable_status_raises_witness :
  list_sort [request_dated; request_of (PList [PStr "Drafted"]) None]
  = Err TypeError.
Proof.
  apply (list_sort_unhashable_status_raises
           (request_of (PList [PStr "Drafted"]) None)).
  - reflexivity.
  - right. left. reflexivity.
  - simpl. lia.
Defined.

(** X6.  Two requests of equal rank, one with a naive date (as the fallback date
    is) and one with an aware date, are unequal under [==] and cannot be
    ordered: [<] raises [TypeError] both ways, and so does the sort of the
    two. *)
Theorem naive_and_aware_dates_do_not_compare (a b : MarketingRequest) (off : Z) :
  hashable (status a) = true ->
  STATUS_ORDER_get (status a) = STATUS_ORDER_get (status b) ->
  utcoffset (date_key a) = None ->
  utcoffset (date_key b) = Some off ->
  __eq__ a b = Ok false /\
  __lt__ a b = Err TypeError /\
  __lt__ b a = Err TypeError /\
  list_sort [a; b] = Err TypeError.
Proof.
  intros Ha Hrank Hoa Hob.
  destruct (sort_key_hashable a Ha) as (k & Hk & Hsa).
  assert (Hsb : _sort_key b = Ok (k, date_key b)).
  { unfold _sort_key. rewrite <- Hrank, Hk. reflexivity. }
  assert (Hlt : __lt__ a b = Err TypeError /\ __lt__ b a = Err TypeError).
  { unfold __lt__. rewrite Hsa, Hsb. cbn [bind]. unfold key_lt. cbn [fst snd].
    rewrite rank_eqb_refl. unfold dt_eq, dt_lt, dt_cmp. rewrite Hoa, Hob.
    split; reflexivity. }
  destruct Hlt as [Hab Hba]. repeat split; auto.
  - unfold __eq__. rewrite Hsa, Hsb. cbn [bind]. unfold key_eq. cbn [fst snd].
    rewrite rank_eqb_refl. unfold dt_eq, dt_cmp. rewrite Hoa, Hob. reflexivity.
  - unfold list_sort. cbn [sort_from sort_insert bind]. now rewrite Hba.
Qed.

Lemma naive_and_aware_dates_do_not_compare_witness :
  let aware := request_of (PStr "Drafted")
                 (Some (mkDatetime 2025 2 3 10 0 0 0 (Some 0))) in
  __eq__ request_undated aware = Ok false /\
  __lt__ request_undated aware = Err TypeError /\
  __lt__ aware request_undated = Err TypeError /\
  list_sort [request_undated; aware] = Err TypeError.
Proof.
  intros aware.
  exact (naive_and_aware_dates_do_not_compare request_undated aware 0
           eq_refl eq_refl eq_refl eq_refl).
Defined.

(** ** What the sort keeps *)

Lemma sort_insert_Permutation (p : MarketingRequest) (l s : list MarketingRequest) :
  sort_insert p l = Ok s -> Permutation (p :: l) s.
Proof.
  revert s. induction l as [|y ys IH]; intros s; cbn [sort_insert].
  - now intros [= <-].
  - destruct (__lt__ p y) as [[|]|]; cbn [bind]; try discriminate.
    + now intros [= <-].
    + destruct (sort_insert p ys) as [rest|] eqn:Hr; cbn [bind]; [|discriminate].
      intros [= <-]. rewrite perm_swap. constructor. now apply IH.
Qed.

Lemma sort_from_Permutation (rest sorted s : list MarketingRequest) :
  sort_from sorted rest = Ok s -> Permutation (sorted ++ rest) s.
Proof.
  revert sorted. induction rest as [|x xs IH]; intros sorted; cbn [sort_from].
  - intros [= <-]. now rewrite app_nil_r.
  - destruct (sort_insert x sorted) as [s'|] eqn:Hi; cbn [bind]; [|discriminate].
    intros H. rewrite <- (IH _ H).
    rewrite <- Permutation_middle.
    apply (Permutation_app_tail xs (sort_insert_Permutation x sorted s' Hi)).
Qed.

Lemma for_each_Forall2 {A B : Type} (f : A -> result B) (l : list A) (ys : list B) :
  for_each f l = Ok ys -> Forall2 (fun x y => f x = Ok y) l ys.
Proof.
  revert ys. induction l as [|x xs IH]; intros ys H; cbn in H.
  - injection H as <-. constructor.
  - destruct (f x) as [y0|] eqn:Hx; cbn in H; [|discriminate].
    destruct (for_each f xs) as [ys0|] eqn:Hxs; cbn in H; [|discriminate].
    injection H as <-. constructor; auto.
Qed.

(** X7.  Whenever [from_record_map] returns, the collection holds one request for
    every block of the record map, neither more nor fewer: no block is
    filtered out, whatever its parent table, and the sort only reorders. *)
Theorem from_record_map_one_request_per_block
    (fromisoformat : string -> result datetime)
    (record_map : pyval) (c : MarketingRequestCollection) :
  from_record_map fromisoformat record_map = Ok c ->
  exists values rs,
    block_values record_map = Ok values /\
    Forall2 (fun b r => block_request fromisoformat b = Ok r) values rs /\
    Permutation rs (requests c) /\
    __len__ c = Z.of_nat (List.length values).
Proof.
  unfold from_record_map, mapped_requests.
  destruct (block_values record_map) as [values|] eqn:Hv; cbn [bind];
    [|discriminate].
  destruct (for_each (block_request fromisoformat) values) as [rs|] eqn:Hrs;
    cbn [bind]; [|discriminate].
  destruct (list_sort rs) as [s|] eqn:Hs; cbn [bind]; [|discriminate].
  intros [= <-]. exists values, rs. cbn [requests].
  pose proof (for_each_Forall2 _ _ _ Hrs) as HF.
  pose proof (sort_from_Permutation rs [] s Hs) as HP. cbn [app] in HP.
  repeat split; auto.
  unfold __len__. cbn [requests]. f_equal.
  rewrite <- (Permutation_length HP). symmetry.
  eapply Forall2_length; eauto.
Qed.

Lemma from_record_map_one_request_per_block_witness :
  exists values rs,
    block_values two_block_record_map = Ok values /\
    Forall2 (fun b r => block_request iso_date b = Ok r) values rs /\
    Permutation rs [request_undated; request_dated] /\
    __len__ (mkCollection [request_undated; request_dated])
    = Z.of_nat (List.length values).
Proof.
  exact (from_record_map_one_request_per_block iso_date two_block_record_map
           (mkCollection [request_undated; request_dated]) eq_refl).
Defined.

Lemma request_le_not_lt_pure (a b : MarketingRequest) :
  request_le a b -> lt_pure b a = false.
Proof.
  intros Hle. unfold lt_pure. destruct Hle as [Hlt|[Heq Hd]].
  - rewrite rank_eqb_sym, (rank_ltb_neq _ _ Hlt). now apply rank_ltb_asym.
  - rewrite Heq, rank_eqb_refl. rewrite cmp_fields_antisym.
    apply Z.ltb_ge. lia.
Qed.

Lemma sort_insert_last (o : option Z) (p : MarketingRequest)
    (l : list MarketingRequest) :
  comparable o p -> Forall (comparable o) l ->
  Forall (fun y => request_le y p) l ->
  sort_insert p l = Ok (l ++ [p]).
Proof.
  intros Hp. induction l as [|y ys IH]; intros Hc Hle; [reflexivity|].
  inversion Hc as [|? ? Hy Hys]; subst.
  inversion Hle as [|? ? Hyp Hrest]; subst.
  cbn [sort_insert]. rewrite (lt_comparable o p y Hp Hy).
  rewrite (request_le_not_lt_pure y p Hyp). cbn [bind].
  rewrite (IH Hys Hrest). reflexivity.
Qed.

Lemma StronglySorted_app_cons_le (l xs : list MarketingRequest)
    (x : MarketingRequest) :
  StronglySorted request_le (l ++ x :: xs) ->
  Forall (fun y => request_le y x) l.
Proof.
  induction l as [|y ys IH]; intros H; [constructor|].
  cbn in H. inversion H as [|? ? Hs Hall]; subst.
  constructor; [|now apply IH].
  rewrite Forall_forall in Hall. apply Hall.
  apply in_or_app. right. now left.
Qed.

Lemma sort_from_sorted_input (o : option Z) (rest sorted : list MarketingRequest) :
  Forall (comparable o) (sorted ++ rest) ->
  StronglySorted request_le (sorted ++ rest) ->
  sort_from sorted rest = Ok (sorted ++ rest).
Proof.
  revert sorted. induction rest as [|x xs IH]; intros sorted Hc Hs.
  - now rewrite app_nil_r.
  - cbn [sort_from].
    rewrite (sort_insert_last o x sorted).
    + cbn [bind]. rewrite (IH (sorted ++ [x])); rewrite <- app_assoc; auto.
    + rewrite Forall_app in Hc. destruct Hc as [_ Hc].
      now inversion Hc.
    + rewrite Forall_app in Hc. tauto.
    + eapply StronglySorted_app_cons_le; eauto.
Qed.

(** Sorting requests that are already in order gives them back unchanged. *)
Lemma list_sort_sorted_input (o : option Z) (l : list MarketingRequest) :
  Forall (comparable o) l -> StronglySorted request_le l -> list_sort l = Ok l.
Proof.
  intros Hc Hs. unfold list_sort.
  now rewrite (sort_from_sorted_input o l []).
Qed.

(** X8.  The second sort is idle: when the mapped requests can be compared,
    [query_marketing_requests] returns the very collection that
    [from_record_map] built from the response. *)
Theorem query_marketing_requests_second_sort_idle
    (fromisoformat : string -> result datetime)
    (data : pyval) (rs : list MarketingRequest) (o : option Z) :
  mapped_requests fromisoformat data = Ok rs ->
  Forall (comparable o) rs ->
  exists c,
    from_record_map fromisoformat data = Ok c /\
    query_marketing_requests fromisoformat (Ok data) = Ok c.
Proof.
  intros Hm Hc.
  destruct (list_sort_sorted o rs Hc) as (s & Hs & Hperm & Hss).
  exists (mkCollection s).
  assert (Hf : from_record_map fromisoformat data = Ok (mkCollection s)).
  { unfold from_record_map. now rewrite Hm; cbn [bind]; rewrite Hs. }
  split; [exact Hf|].
  unfold query_marketing_requests. cbn [bind]. rewrite Hf. cbn [bind requests].
  rewrite (list_sort_sorted_input o s); [reflexivity | | exact Hss].
  eapply Permutation_Forall; eauto.
Qed.

Lemma query_marketing_requests_second_sort_idle_witness :
  exists c,
    from_record_map iso_date two_block_record_map = Ok c /\
    query_marketing_requests iso_date (Ok two_block_record_map) = Ok c.
Proof.
  apply (query_marketing_requests_second_sort_idle iso_date two_block_record_map
           [request_dated; request_undated] None).
  - reflexivity.
  - repeat constructor.
Defined.

Lemma cmp_fields_zero (a b : list Z) : cmp_fields a b = 0 -> a = b.
Proof.
  revert b. induction a as [|x xs IH]; intros [|y ys]; simpl;
    try reflexivity; try discriminate.
  destruct (Z.eqb_spec x y) as [->|Hne].
  - intros H. f_equal. now apply IH.
  - destruct (x <? y); discriminate.
Qed.

Lemma same_key_then_lt (k p z : MarketingRequest) :
  same_key k p = true -> lt_pure p z = true -> same_key k z = false.
Proof.
  unfold same_key, lt_pure. intros Hkp Hpz.
  apply andb_true_iff in Hkp. destruct Hkp as [Hr Hd].
  apply rank_eqb_eq in Hr. apply Z.eqb_eq in Hd. apply cmp_fields_zero in Hd.
  rewrite Hr, Hd.
  destruct (rank_eqb (rank_of p) (rank_of z)); [|reflexivity].
  cbn [andb]. apply Z.ltb_lt in Hpz. apply Z.eqb_neq. lia.
Qed.

Lemma lt_pure_then_le (p y z : MarketingRequest) :
  lt_pure p y = true -> request_le y z -> lt_pure p z = true.
Proof.
  intros Hpy Hyz. destruct (lt_pure p z) eqn:Hpz; [reflexivity|].
  apply lt_pure_false_le in Hpz.
  pose proof (request_le_trans _ _ _ Hyz Hpz) as Hyp.
  apply request_le_not_lt_pure in Hyp. congruence.
Qed.

Lemma filter_none {A : Type} (f : A -> bool) (l : list A) :
  (forall z, In z l -> f z = false) -> filter f l = [].
Proof.
  induction l as [|x xs IH]; intros H; [reflexivity|].
  cbn [filter]. rewrite (H x (or_introl eq_refl)).
  apply IH. intros z Hz. apply H. now right.
Qed.

Lemma filter_one {A : Type} (f : A -> bool) (x : A) (l : list A) :
  filter f (x :: l) = filter f [x] ++ filter f l.
Proof. cbn [filter]. now destruct (f x). Qed.

Lemma sort_insert_keeps_ties (o : option Z) (p : MarketingRequest)
    (l : list MarketingRequest) :
  comparable o p -> Forall (comparable o) l -> StronglySorted request_le l ->
  exists s, sort_insert p l = Ok s /\
    forall k, filter (same_key k) s
              = filter (same_key k) l ++ filter (same_key k) [p].
Proof.
  intros Hp. induction l as [|y ys IH]; intros Hc Hs.
  - exists [p]. split; reflexivity.
  - inversion Hc as [|? ? Hy Hys]; subst.
    inversion Hs as [|? ? Hs' Hall]; subst.
    cbn [sort_insert]. rewrite (lt_comparable o p y Hp Hy). cbn [bind].
    destruct (lt_pure p y) eqn:E.
    + exists (p :: y :: ys). split; [reflexivity|]. intros k.
      rewrite (filter_one (same_key k) p (y :: ys)).
      destruct (same_key k p) eqn:Hk.
      * assert (Hnone : filter (same_key k) (y :: ys) = []).
        { apply filter_none. intros z Hz.
          apply (same_key_then_lt k p z Hk).
          destruct Hz as [<-|Hz]; [exact E|].
          apply (lt_pure_then_le p y z E).
          rewrite Forall_forall in Hall. now apply Hall. }
        rewrite Hnone. now rewrite app_nil_r.
      * assert (Hp0 : filter (same_key k) [p] = []).
        { cbn [filter]. now rewrite Hk. }
        rewrite Hp0. now rewrite app_nil_r.
    + destruct (IH Hys Hs') as (rest & Hr & Hties).
      rewrite Hr. cbn [bind]. exists (y :: rest). split; [reflexivity|].
      intros k. cbn [filter]. rewrite (Hties k).
      destruct (same_key k y); reflexivity.
Qed.

Lemma sort_from_keeps_ties (o : option Z) (rest sorted : list MarketingRequest) :
  Forall (comparable o) sorted -> Forall (comparable o) rest ->
  StronglySorted request_le sorted ->
  exists s, sort_from sorted rest = Ok s /\
    forall k, filter (same_key k) s
              = filter (same_key k) sorted ++ filter (same_key k) rest.
Proof.
  revert sorted. induction rest as [|x xs IH]; intros sorted Hcs Hcr Hs.
  - exists sorted. split; [reflexivity|]. intros k. now rewrite app_nil_r.
  - inversion Hcr as [|? ? Hx Hxs]; subst.
    destruct (sort_insert_keeps_ties o x sorted Hx Hcs Hs) as (s1 & Hi & Ht1).
    destruct (sort_insert_sorted o x sorted Hx Hcs Hs) as (s1' & Hi' & Hperm & Hss).
    rewrite Hi in Hi'. injection Hi' as <-.
    cbn [sort_from]. rewrite Hi. cbn [bind].
    destruct (IH s1) as (s & Hsf & Ht); auto.
    { eapply Permutation_Forall; [exact Hperm|]. now constructor. }
    exists s. split; [exact Hsf|]. intros k.
    rewrite (Ht k), (Ht1 k), <- app_assoc.
    now rewrite <- (filter_one (same_key k) x xs).
Qed.

(** X9.  The sort is stable: among requests that can be compared, those that tie
    (equal rank and equal date) come out in the order in which they went in. *)
Theorem list_sort_keeps_order_of_ties (o : option Z) (l : list MarketingRequest) :
  Forall (comparable o) l ->
  exists s, list_sort l = Ok s /\
    forall k, filter (same_key k) s = filter (same_key k) l.
Proof.
  intros Hc.
  destruct (sort_from_keeps_ties o l [] (Forall_nil _) Hc (SSorted_nil _))
    as (s & Hs & Ht).
  exists s. split; [exact Hs|]. intros k. now rewrite (Ht k).
Qed.

Lemma list_sort_keeps_order_of_ties_witness :
  let first := mkMarketingRequest (PStr "1") (PStr "A") PNone PNone
                 (PStr "Drafted") PNone None PNone PNone in
  let second := mkMarketingRequest (PStr "2") (PStr "B") PNone PNone
                  (PStr "Drafted") PNone None PNone PNone in
  exists s, list_sort [request_dated; first; second] = Ok s /\
    forall k, filter (same_key k) s
              = filter (same_key k) [request_dated; first; second].
Proof.
  intros first second.
  apply (list_sort_keeps_order_of_ties None [request_dated; first; second]).
  repeat constructor.
Defined.

(** ** More on the record mapper *)

Section MapperMore.

Variable fromisoformat : string -> result datetime.

(** X10.  [from_notion_page] returns a request exactly when the page is a
    dictionary whose [properties] entry is absent or a dictionary; in every
    other case it raises [AttributeError], and it never raises anything
    else, whatever the property values and the date parser do. *)
Theorem from_notion_page_returns_iff (v : pyval) :
  ((exists r, from_notion_page fromisoformat v = Ok r) <->
   (exists page props, v = PDict page /\ properties_of page = PDict props)) /\
  (forall e, from_notion_page fromisoformat v = Err e -> e = AttributeError).
Proof.
  destruct (from_notion_page fromisoformat v) as [r|e] eqn:Hres.
  - split; [|discriminate]. split; [intros _|eauto].
    destruct v as [| | | | |page]; try discriminate.
    destruct (properties_of page) as [| | | | |props] eqn:Hp;
      try (rewrite from_notion_page_properties_not_dict in Hres
             by (now rewrite Hp); discriminate).
    exists page, props. auto.
  - split.
    + split; [intros (r & H); discriminate|].
      intros (page & props & -> & Hp).
      destruct (from_notion_page_dict fromisoformat page props Hp)
        as (dt & _ & Hr).
      rewrite Hr in Hres. discriminate.
    + intros e' [= <-].
      destruct v as [| | | | |page]; try (cbn in Hres; congruence).
      destruct (properties_of page) as [| | | | |props] eqn:Hp;
        try (rewrite from_notion_page_properties_not_dict in Hres
               by (now rewrite Hp); congruence).
      destruct (from_notion_page_dict fromisoformat page props Hp)
        as (dt & _ & Hr).
      rewrite Hr in Hres. discriminate.
Qed.

(** X11.  A request built from a page never has a final post or visuals, also
    when the page carries the properties "LQ>I" and "q=zv"; its id is the
    page's "id" entry, [None] when there is none. *)
Theorem from_notion_page_leaves_files_unset
    (page : list (string * pyval)) (r : MarketingRequest) :
  from_notion_page fromisoformat (PDict page) = Ok r ->
  final_post r = PNone /\ visuals r = PNone /\ id r = prop page "id".
Proof.
  intros H.
  destruct (properties_of page) as [| | | | |props] eqn:Hp;
    try (rewrite from_notion_page_properties_not_dict in H
           by (now rewrite Hp); discriminate).
  destruct (from_notion_page_dict fromisoformat page props Hp) as (dt & _ & Hr).
  rewrite Hr in H. injection H as <-. repeat split.
Qed.

Lemma start_date_ok_present (props : list (string * pyval)) (v : pyval) :
  start_date (PDict props) = Ok v ->
  py_contains (PDict props) "{Rrz" = Ok true.
Proof.
  unfold start_date, py_getitem, py_contains.
  destruct (assoc_get "{Rrz" props); cbn [bind]; [reflexivity | discriminate].
Qed.

(** X12.  When the date path leads to a truthy value, the post date is what
    [datetime.fromisoformat] makes of it, and the fallback date when the
    parser raises ([ValueError] on a malformed string, [TypeError] on a value
    that is no string). *)
Theorem from_notion_page_parses_start_date
    (page props : list (string * pyval)) (v : pyval) :
  properties_of page = PDict props ->
  start_date (PDict props) = Ok v ->
  truthy v = true ->
  exists r,
    from_notion_page fromisoformat (PDict page) = Ok r /\
    post_date r = Some (match datetime_fromisoformat fromisoformat v with
                        | Ok d => d
                        | Err _ => FALLBACK_DATE
                        end).
Proof.
  intros Hp Hs Ht.
  destruct (from_notion_page_dict fromisoformat page props Hp) as (dt & Hdt & Hr).
  eexists. split; [exact Hr|]. cbn [post_date].
  unfold read_post_date in Hdt.
  rewrite (start_date_ok_present props v Hs) in Hdt.
  cbn [bind] in Hdt. rewrite Hs in Hdt. cbn [bind] in Hdt. rewrite Ht in Hdt.
  destruct (datetime_fromisoformat fromisoformat v);
    cbn [bind try_except] in Hdt; congruence.
Qed.

End MapperMore.

Lemma from_notion_page_leaves_files_unset_witness :
  let page := [("id", PStr "p");
               ("properties",
                PDict [("LQ>I", PList [PList [PStr "final.png"]]);
                       ("q=zv", PList [PList [PStr "draft.png"]])])] in
  exists r, from_notion_page iso_date (PDict page) = Ok r /\
            final_post r = PNone /\ visuals r = PNone /\ id r = PStr "p".
Proof.
  intros page. eexists. split; [reflexivity|].
  exact (from_notion_page_leaves_files_unset iso_date page _ eq_refl).
Defined.

Lemma from_notion_page_parses_start_date_witness :
  let props := [("{Rrz", date_rollup "2025-13-40")] in
  exists r,
    from_notion_page iso_date (PDict [("properties", PDict props)]) = Ok r /\
    post_date r = Some FALLBACK_DATE.
Proof.
  intros props.
  exact (from_notion_page_parses_start_date iso_date
           [("properties", PDict props)] props (PStr "2025-13-40")
           eq_refl eq_refl eq_refl).
Defined.

(** X13.  [get_first] on a dictionary of properties never raises.  It returns
    the first element of the first segment of the property value, ignoring
    every further element and segment, and [None] when the value is absent
    or is not a non-empty list that starts with a non-empty list. *)
Theorem get_first_takes_first_of_first (d : list (string * pyval)) (k : string) :
  exists v,
    get_first (PDict d) k = Ok v /\
    (forall x more segments,
       prop d k = PList (PList (x :: more) :: segments) -> v = x) /\
    (well_shaped (prop d k) = false -> v = PNone).
Proof.
  exists (first_of (prop d k)). split; [apply get_first_dict|]. split.
  - intros x more segments H. now rewrite H.
  - apply first_of_ill_shaped.
Qed.

(** ** Edge cases of [from_record_map] *)

Lemma for_each_Err_inv {A B : Type} (f : A -> result B) (l : list A) (e : exn) :
  for_each f l = Err e -> exists x, In x l /\ f x = Err e.
Proof.
  induction l as [|x xs IH]; cbn [for_each]; [discriminate|].
  destruct (f x) as [y|e'] eqn:Hx; cbn [bind].
  - destruct (for_each f xs) as [ys|e''] eqn:Hxs; cbn [bind]; [discriminate|].
    intros [= <-]. destruct (IH eq_refl) as (x' & Hin & Hfx).
    exists x'. split; [now right | exact Hfx].
  - intros [= <-]. exists x. split; [now left | exact Hx].
Qed.

Lemma for_each_fails {A B : Type} (f : A -> result B) (l : list A) (x : A) (e : exn) :
  In x l -> f x = Err e -> exists e', for_each f l = Err e'.
Proof.
  induction l as [|y ys IH]; [intros []|].
  intros [->|Hin] Hx; cbn [for_each].
  - rewrite Hx. cbn [bind]. eauto.
  - destruct (f y); cbn [bind]; [|eauto].
    destruct (IH Hin Hx) as (e' & ->). cbn [bind]. eauto.
Qed.

Lemma py_get_default_raises_AttributeError_only (v : pyval) (k : string)
    (default : pyval) (e : exn) :
  py_get_default v k default = Err e -> e = AttributeError.
Proof. destruct v; cbn; try discriminate; now intros [= <-]. Qed.

Lemma block_values_raises_AttributeError_only (record_map : pyval) (e : exn) :
  block_values record_map = Err e -> e = AttributeError.
Proof.
  unfold block_values.
  destruct (py_get_default record_map "recordMap" (PDict [])) as [rm|e1] eqn:H1;
    cbn [bind];
    [|intros [= <-]; eapply py_get_default_raises_AttributeError_only; eauto].
  destruct (py_get_default rm "block" (PDict [])) as [blocks|e2] eqn:H2;
    cbn [bind];
    [|intros [= <-]; eapply py_get_default_raises_AttributeError_only; eauto].
  destruct blocks; cbn; try discriminate; now intros [= <-].
Qed.

Section RecordMapEdges.

Variable fromisoformat : string -> result datetime.

Lemma from_notion_page_raises_AttributeError_only (v : pyval) (e : exn) :
  from_notion_page fromisoformat v = Err e -> e = AttributeError.
Proof.
  intros Hres.
  destruct v as [| | | | |page]; try (cbn in Hres; congruence).
  destruct (properties_of page) as [| | | | |props] eqn:Hp;
    try (rewrite from_notion_page_properties_not_dict in Hres
           by (now rewrite Hp); congruence).
  destruct (from_notion_page_dict fromisoformat page props Hp) as (dt & _ & Hr).
  rewrite Hr in Hres. discriminate.
Qed.

Lemma block_request_raises_AttributeError_only (b : pyval) (e : exn) :
  block_request fromisoformat b = Err e -> e = AttributeError.
Proof.
  unfold block_request.
  destruct (py_get_default b "value" (PDict [])) as [v|e1] eqn:H1; cbn [bind].
  - apply from_notion_page_raises_AttributeError_only.
  - intros [= <-]. eapply py_get_default_raises_AttributeError_only; eauto.
Qed.

Lemma mapped_requests_raises_AttributeError_only (record_map : pyval) (e : exn) :
  mapped_requests fromisoformat record_map = Err e -> e = AttributeError.
Proof.
  unfold mapped_requests.
  destruct (block_values record_map) as [values|e1] eqn:Hv; cbn [bind].
  - intros H. destruct (for_each_Err_inv _ _ _ H) as (b & _ & Hb).
    eapply block_request_raises_AttributeError_only; eauto.
  - intros [= <-]. eapply block_values_raises_AttributeError_only; eauto.
Qed.

(** X14.  [from_record_map] raises nothing but [AttributeError], when a part of
    the record map that should be a dictionary is not one, and [TypeError],
    when the sort compares two requests that cannot be compared. *)
Theorem from_record_map_raises_two_errors_only (record_map : pyval) (e : exn) :
  from_record_map fromisoformat record_map = Err e ->
  (e = AttributeError /\ mapped_requests fromisoformat record_map = Err e) \/
  (e = TypeError /\ exists rs, mapped_requests fromisoformat record_map = Ok rs
                               /\ list_sort rs = Err e).
Proof.
  unfold from_record_map.
  destruct (mapped_requests fromisoformat record_map) as [rs|e1] eqn:Hm;
    cbn [bind].
  - destruct (list_sort rs) as [s|e2] eqn:Hs; cbn [bind]; [discriminate|].
    intros [= <-]. right. split; [|eauto].
    eapply sort_from_raises_TypeError_only; eauto.
  - intros [= <-]. left. split; [|reflexivity].
    eapply mapped_requests_raises_AttributeError_only; eauto.
Qed.

(** X15.  One block that cannot be mapped aborts the whole batch: when the request
    of any block raises, [from_record_map] raises [AttributeError] and
    returns no collection, however many good blocks there are. *)
Theorem from_record_map_one_bad_block_aborts
    (record_map : pyval) (values : list pyval) (b : pyval) (e : exn) :
  block_values record_map = Ok values ->
  In b values ->
  block_request fromisoformat b = Err e ->
  from_record_map fromisoformat record_map = Err AttributeError.
Proof.
  intros Hv Hin Hb.
  destruct (for_each_fails _ values b e Hin Hb) as (e' & He').
  assert (Hm : mapped_requests fromisoformat record_map = Err e').
  { unfold mapped_requests. rewrite Hv. exact He'. }
  unfold from_record_map. rewrite Hm. cbn [bind]. f_equal.
  eapply mapped_requests_raises_AttributeError_only; eauto.
Qed.

(** X16.  A record map without a "recordMap" entry, or whose "recordMap" has no
    "block" entry, gives the empty collection. *)
Theorem from_record_map_without_blocks_is_empty (d : list (string * pyval)) :
  assoc_get "recordMap" d = None \/
  (exists rm, assoc_get "recordMap" d = Some (PDict rm)
              /\ assoc_get "block" rm = None) ->
  from_record_map fromisoformat (PDict d) = Ok (mkCollection []).
Proof.
  unfold from_record_map, mapped_requests, block_values, py_get_default.
  intros [H|(rm & H1 & H2)].
  - rewrite H. reflexivity.
  - rewrite H1. cbn [bind]. rewrite H2. reflexivity.
Qed.

(** X17.  A block without a "value" entry is not skipped: it is mapped like an
    empty page, to the request without id, with the empty title, no status
    and the fallback date. *)
Theorem block_without_value_gives_blank_request (b : list (string * pyval)) :
  assoc_get "value" b = None ->
  block_request fromisoformat (PDict b) = Ok (blank_request PNone).
Proof.
  intros H. unfold block_request, py_get_default. rewrite H. reflexivity.
Qed.

End RecordMapEdges.

Lemma from_record_map_raises_two_errors_only_witness :
  (AttributeError = AttributeError /\
   mapped_requests iso_date (PList []) = Err AttributeError) \/
  (AttributeError = TypeError /\
   exists rs, mapped_requests iso_date (PList []) = Ok rs
              /\ list_sort rs = Err AttributeError).
Proof.
  exact (from_record_map_raises_two_errors_only iso_date (PList [])
           AttributeError eq_refl).
Defined.

Lemma from_record_map_one_bad_block_aborts_witness :
  from_record_map iso_date
    (PDict [("recordMap",
             PDict [("block",
                     PDict [("b1", block_dated);
                            ("b2", PDict [("value", PNone)]);
                            ("b3", block_undated)])])])
  = Err AttributeError.
Proof.
  apply (from_record_map_one_bad_block_aborts iso_date _
           [block_dated; PDict [("value", PNone)]; block_undated]
           (PDict [("value", PNone)]) AttributeError).
  - reflexivity.
  - right. left. reflexivity.
  - reflexivity.
Defined.

Lemma from_record_map_without_blocks_is_empty_witness :
  from_record_map iso_date (PDict [("recordMap", PDict [("cursor", PNone)])])
  = Ok (mkCollection []).
Proof.
  apply (from_record_map_without_blocks_is_empty iso_date).
  right. exists [("cursor", PNone)]. split; reflexivity.
Defined.

Lemma block_without_value_gives_blank_request_witness :
  block_request iso_date (PDict [("role", PStr "reader")])
  = Ok (blank_request PNone).
Proof.
  apply (block_without_value_gives_blank_request iso_date). reflexivity.
Defined.

(** ** More on filtering and subscripting *)

Lemma StronglySorted_filter (f : MarketingRequest -> bool)
    (l : list MarketingRequest) :
  StronglySorted request_le l -> StronglySorted request_le (filter f l).
Proof.
  induction 1 as [|x xs Hs IH Hall]; cbn [filter]; [constructor|].
  destruct (f x); [|exact IH].
  constructor; [exact IH|].
  rewrite Forall_forall in *. intros z Hz.
  apply filter_In in Hz. now apply Hall.
Qed.

(** X18.  Filtering keeps the order: on a collection that is sorted, what
    [fetch_requests_by_status] and [fetch_requests_by_type] return is sorted
    too. *)
Theorem fetch_keeps_sorted (c : MarketingRequestCollection) (s : string) :
  StronglySorted request_le (requests c) ->
  StronglySorted request_le (fetch_requests_by_status c s) /\
  StronglySorted request_le (fetch_requests_by_type c s).
Proof.
  intros H. split; apply StronglySorted_filter; exact H.
Qed.

Lemma fetch_keeps_sorted_witness :
  StronglySorted request_le
    (fetch_requests_by_status (mkCollection [request_undated; request_dated])
       "Drafted") /\
  StronglySorted request_le
    (fetch_requests_by_type (mkCollection [request_undated; request_dated])
       "Drafted").
Proof.
  apply (fetch_keeps_sorted (mkCollection [request_undated; request_dated])
           "Drafted").
  apply SSorted_cons; [apply SSorted_cons; [apply SSorted_nil | apply Forall_nil]|].
  apply Forall_cons; [|apply Forall_nil].
  right. split; [reflexivity|]. cbn. lia.
Defined.

(** X19.  [fetch_requests_by_type] keeps, in their order, exactly the requests
    whose content type is the given string, character for character; a
    request without content type is never returned. *)
Theorem fetch_requests_by_type_exact (c : MarketingRequestCollection) (s : string) :
  fetch_requests_by_type c s
  = filter (fun r => match content_type r with
                     | PStr t => String.eqb t s
                     | _ => false
                     end) (requests c)
  /\ (forall r, In r (fetch_requests_by_type c s)
                <-> In r (requests c) /\ content_type r = PStr s)
  /\ (forall r, In r (fetch_requests_by_type c s) -> content_type r <> PNone).
Proof.
  unfold fetch_requests_by_type, _fetch. split; [|split].
  - apply filter_ext. intros r. now destruct (content_type r).
  - intros r. rewrite filter_In. now rewrite py_eq_str.
  - intros r Hr. apply filter_In in Hr. destruct Hr as [_ Hr].
    apply py_eq_str in Hr. rewrite Hr. discriminate.
Qed.

(** X20.  Subscripting the collection with an index inside the list returns the
    request at that position, and the same request is reached from the end
    with the index less the length. *)
Theorem getitem_in_range (c : MarketingRequestCollection) (i : Z) :
  0 <= i < __len__ c ->
  exists r,
    nth_error (requests c) (Z.to_nat i) = Some r /\
    __getitem__ c i = Ok r /\
    __getitem__ c (i - __len__ c) = Ok r.
Proof.
  intros Hi. unfold __getitem__.
  assert (Hn : (Z.to_nat i < List.length (requests c))%nat).
  { unfold __len__ in Hi. lia. }
  destruct (nth_error (requests c) (Z.to_nat i)) as [r|] eqn:Hr.
  - exists r. split; [reflexivity|].
    replace (i <? 0) with false by (symmetry; apply Z.ltb_ge; lia).
    replace (i - __len__ c <? 0) with true by (symmetry; apply Z.ltb_lt; lia).
    replace (i - __len__ c + __len__ c) with i by lia.
    replace ((0 <=? i) && (i <? __len__ c)) with true.
    + rewrite Hr. auto.
    + symmetry. apply andb_true_iff. split; [apply Z.leb_le | apply Z.ltb_lt]; lia.
  - apply nth_error_None in Hr. lia.
Qed.

Lemma getitem_in_range_witness :
  exists r,
    nth_error [request_undated; request_dated] (Z.to_nat 1) = Some r /\
    __getitem__ (mkCollection [request_undated; request_dated]) 1 = Ok r /\
    __getitem__ (mkCollection [request_undated; request_dated]) (1 - 2) = Ok r.
Proof.
  apply (getitem_in_range (mkCollection [request_undated; request_dated]) 1).
  cbn. lia.
Defined.

(** X21.  Subscripting with an index at or beyond the length, or below its
    negative, raises [IndexError]; so does any index on the empty
    collection. *)
Theorem getitem_out_of_range (c : MarketingRequestCollection) (i : Z) :
  i < - __len__ c \/ __len__ c <= i ->
  __getitem__ c i = Err IndexError.
Proof.
  intros Hi. unfold __getitem__.
  assert (Hlen : 0 <= __len__ c) by (unfold __len__; lia).
  destruct (Z.ltb_spec i 0).
  - replace ((0 <=? i + __len__ c) && (i + __len__ c <? __len__ c)) with false;
      [reflexivity|].
    symmetry. apply andb_false_iff. left. apply Z.leb_gt. lia.
  - replace ((0 <=? i) && (i <? __len__ c)) with false; [reflexivity|].
    symmetry. apply andb_false_iff. right. apply Z.ltb_ge. lia.
Qed.

Lemma getitem_out_of_range_witness :
  __getitem__ (mkCollection []) 0 = Err IndexError.
Proof.
  apply (getitem_out_of_range (mkCollection []) 0). right. cbn. lia.
Defined.

(** ** More on the polling loop and the publishers *)

Section PollerMore.

Variable fromisoformat : string -> result datetime.

Lemma failing_turns_keep_snapshot (turns : nat) (https : nat -> result pyval)
    (d : option MarketingRequestCollection) :
  (forall k, (k < turns)%nat ->
     exists e, query_marketing_requests fromisoformat (https k) = Err e) ->
  fetch_notion_data fromisoformat turns https d = Running d.
Proof.
  induction turns as [|n IH]; intros Hfail; [reflexivity|].
  cbn [fetch_notion_data]. destruct (Hfail n) as (e & He); [lia|].
  unfold poll_cycle. rewrite He. cbn [bind try_except].
  apply IH. intros k Hk. apply Hfail. lia.
Qed.

(** X22.  The global holds the collection of the latest query that returned: if
    the query of one turn returns [c] and every later query raises, the
    global is [c] at the end, whatever it held and whatever happened before. *)
Theorem poll_keeps_latest_success (turns j : nat) (https : nat -> result pyval)
    (d : option MarketingRequestCollection) (c : MarketingRequestCollection) :
  (j < turns)%nat ->
  query_marketing_requests fromisoformat (https j) = Ok c ->
  (forall k, (k < j)%nat ->
     exists e, query_marketing_requests fromisoformat (https k) = Err e) ->
  fetch_notion_data fromisoformat turns https d = Running (Some c).
Proof.
  intros Hj Hok Hfail. revert d.
  induction turns as [|n IH]; intros d; [lia|].
  cbn [fetch_notion_data].
  destruct (Nat.eq_dec j n) as [->|Hne].
  - unfold poll_cycle. rewrite Hok. cbn [bind try_except].
    now apply failing_turns_keep_snapshot.
  - destruct (poll_cycle_continues fromisoformat (https n) d) as (d' & ->).
    apply IH. lia.
Qed.

End PollerMore.

Lemma poll_keeps_latest_success_witness :
  fetch_notion_data iso_date 3
    (fun n => match n with
              | 1%nat => Ok two_block_record_map
              | _ => Err (Exception "503 Server Error")
              end)
    None
  = Running (Some (mkCollection [request_undated; request_dated])).
Proof.
  apply (poll_keeps_latest_success iso_date 3 1).
  - lia.
  - reflexivity.
  - intros k Hk. destruct k as [|k]; [|lia]. eexists. reflexivity.
Defined.

Section PublisherFacts.

Variable fromisoformat : string -> result datetime.
Variable requests_post : string -> pyval -> result response.
Variable call_on_request : MarketingRequest -> attribute -> result string.
Variable call_on_collection :
  MarketingRequestCollection -> attribute -> result (list MarketingRequest).

Lemma to_markdown_raises (req : MarketingRequest) :
  to_markdown call_on_request req = Err AttributeError.
Proof. reflexivity. Qed.

Lemma filter_by_criterion_raises (y : MarketingRequestCollection) :
  filter_by_criterion call_on_collection y = Err AttributeError.
Proof. reflexivity. Qed.

(** X23.  The [/getbacklog] handler answers only when the cache holds a collection
    without any "Not Started" request, and then with an empty text: with such
    a request the call of [to_markdown], which no request has, raises
    [AttributeError], and so does the empty cache. *)
Theorem flask_backlog_answers_only_empty
    (notion_data : option MarketingRequestCollection) :
  SlackFlask.generate_weekly_backlog_graphics call_on_request notion_data
  = match notion_data with
    | Some c =>
        match fetch_requests_by_status c "Not Started" with
        | [] => Ok (SlackFlask.jsonify "")
        | _ :: _ => Err AttributeError
        end
    | None => Err AttributeError
    end.
Proof.
  unfold SlackFlask.generate_weekly_backlog_graphics, backlog_requests.
  destruct notion_data as [c|]; [|reflexivity]. cbn [bind].
  destruct (fetch_requests_by_status c "Not Started") as [|r rs]; reflexivity.
Qed.

(** X24.  The [/getweeklyschedule] handler raises [AttributeError] in every state
    of the cache. *)
Theorem flask_weekly_schedule_always_raises
    (notion_data : option MarketingRequestCollection) (today : string) :
  SlackFlask.generate_weekly_posting_schedule call_on_request call_on_collection
    notion_data today
  = Err AttributeError.
Proof. destruct notion_data; reflexivity. Qed.

(** X25.  [generate_posting_schedule] never completes and never reaches the
    webhook: it raises what the query raises, and [AttributeError] when the
    query returns. *)
Theorem posting_schedule_always_raises (http : result pyval)
    (today webhook_url : string) :
  SlackInterconnect.generate_posting_schedule fromisoformat requests_post
    call_on_request call_on_collection http today webhook_url
  = match query_marketing_requests fromisoformat http with
    | Ok _ => Err AttributeError
    | Err e => Err e
    end.
Proof.
  unfold SlackInterconnect.generate_posting_schedule.
  destruct (query_marketing_requests fromisoformat http); reflexivity.
Qed.

(** X26.  [generate_weekly_backlog_graphics] of [SlackInterconnect.py] reaches the
    webhook only when no request is "Not Started", and then sends the empty
    text as "Marketing Bot"; one such request makes it raise
    [AttributeError] before anything is sent. *)
Theorem backlog_graphics_sends_only_empty (http : result pyval)
    (webhook_url : string) (y : MarketingRequestCollection) :
  query_marketing_requests fromisoformat http = Ok y ->
  SlackInterconnect.generate_weekly_backlog_graphics fromisoformat requests_post
    call_on_request http webhook_url
  = match fetch_requests_by_status y "Not Started" with
    | [] =>
        _ <- send_slack_webhook_message requests_post webhook_url ""
               "Marketing Bot" ":chart_with_upwards_trend:" true ;;
        Ok tt
    | _ :: _ => Err AttributeError
    end.
Proof.
  intros Hq. unfold SlackInterconnect.generate_weekly_backlog_graphics.
  rewrite Hq. cbn [bind].
  destruct (fetch_requests_by_status y "Not Started") as [|r rs]; reflexivity.
Qed.

End PublisherFacts.

Lemma backlog_graphics_sends_only_empty_witness :
  SlackInterconnect.generate_weekly_backlog_graphics iso_date
    (fun _ _ => Ok (mkResponse 200 "ok")) (fun _ _ => Ok "line")
    (Ok two_block_record_map) "https://hooks.example/T000"
  = Ok tt.
Proof.
  exact (backlog_graphics_sends_only_empty iso_date
           (fun _ _ => Ok (mkResponse 200 "ok")) (fun _ _ => Ok "line")
           (Ok two_block_record_map) "https://hooks.example/T000"
           (mkCollection [request_undated; request_dated]) eq_refl).
Defined.

(** ** The order of a returned collection *)


